(** * Attendance views of the buzz backend

    A shallow embedding of [buzzhire_backend/buzz/views.py]: the helper
    [detect_branch] and the three attendance views [PunchInView.post],
    [PunchOutView.post] and [TodayAttendanceView.get].

    Python floats are IEEE binary64 numbers, so they are modelled by Rocq's
    primitive floats: [float("inf")] is [infinity], and the comparisons
    [<], [<=], [>] are [PrimFloat.ltb] and [PrimFloat.leb], with the same
    behaviour on infinities and NaN.  The attendance table is a list of rows
    together with the next value of the primary-key sequence; a view is a
    function from the clock readings, the request and the table to a result
    (a response or a raised exception) and the table afterwards. *)

From Stdlib Require Import ZArith List String Ascii Bool Lia Floats.
Import ListNotations.
Open Scope string_scope.
Open Scope Z_scope.
Open Scope list_scope.

(** ** Python values *)

(** The exceptions the views can raise without catching them. *)
Inductive exn : Type :=
| TypeError
| ValueError.

Inductive result (A : Type) : Type :=
| Ok (a : A)
| Raise (e : exn).
Arguments Ok {A} a.
Arguments Raise {A} e.

(** A [date] is a day number; a [datetime] is a day number and the
    microseconds elapsed within that day. *)
Definition date : Type := Z.

Record datetime : Type := mkDatetime {
  dt_date : date;
  dt_time : Z
}.

(** The values found in [request.data] and in response bodies. *)
#[local] Unset Elimination Schemes.
Inductive pyval : Type :=
| PyNone
| PyBool (b : bool)
| PyFloat (f : float)
| PyStr (s : string)
| PyDatetime (t : datetime)
| PyDict (d : list (string * pyval)).
#[local] Set Elimination Schemes.

Definition dict : Type := list (string * pyval).

(** [d.get(k)] on a dict literal: the first binding of [k]. *)
Fixpoint dict_lookup (k : string) (d : dict) : option pyval :=
  match d with
  | [] => None
  | (k', v) :: d' => if String.eqb k k' then Some v else dict_lookup k d'
  end.

(** [k in d]. *)
Definition dict_in (k : string) (d : dict) : bool :=
  match dict_lookup k d with
  | Some _ => true
  | None => false
  end.

(** [d.get(k)], which is [None] for an absent key. *)
Definition dict_get (k : string) (d : dict) : pyval :=
  match dict_lookup k d with
  | Some v => v
  | None => PyNone
  end.

(** [d[k1][k2]] read as an optional value. *)
Definition dict_lookup2 (k1 k2 : string) (d : dict) : option pyval :=
  match dict_lookup k1 d with
  | Some (PyDict d') => dict_lookup k2 d'
  | _ => None
  end.

Definition opt_datetime (t : option datetime) : pyval :=
  match t with
  | Some t' => PyDatetime t'
  | None => PyNone
  end.

(** Python's comparisons on floats. *)
Definition py_lt (x y : float) : bool := PrimFloat.ltb x y.
Definition py_le (x y : float) : bool := PrimFloat.leb x y.
Definition py_gt (x y : float) : bool := PrimFloat.ltb y x.
Definition py_eq (x y : float) : bool := PrimFloat.eqb x y.

(** ** Data model *)

(** An entry of [BRANCHES]: a dict with the keys ["name"], ["lat"], ["lon"]. *)
Record Branch : Type := mkBranch {
  name : string;
  lat : float;
  lon : float
}.

(** Modelled from the spec: the [Attendance] model of [models.py], which
    is not part of the sources.  A row has the fields the views read and
    write; every field but [id] and [user] is nullable, and a field that
    [objects.create] is not given is null. *)
Record Attendance : Type := mkAttendance {
  id : Z;
  user : Z;
  punch_in_time : option datetime;
  punch_in_lat : option float;
  punch_in_lon : option float;
  punch_out_time : option datetime;
  punch_out_lat : option float;
  punch_out_lon : option float
}.

(** The table: its rows and the next value of the primary-key sequence. *)
Record Store : Type := mkStore {
  rows : list Attendance;
  next_id : Z
}.

(** A table is well formed when primary keys are unique and below the
    sequence value. *)
Definition wf_store (db : Store) : Prop :=
  NoDup (map id (rows db)) /\ Forall (fun a => id a < next_id db) (rows db).

(** [request.user] (the primary key of the authenticated user) and
    [request.data]. *)
Record Request : Type := mkRequest {
  req_user : Z;
  data : dict
}.

(** The two clock readings of a request: [date.today()] and
    [datetime.now()]. *)
Record Clock : Type := mkClock {
  today : date;
  now : datetime
}.

(** [Response(data, status=...)]. *)
Record Response : Type := mkResponse {
  resp_data : dict;
  status_code : Z
}.

(** What [views.py] imports and the sources do not contain: the constants
    [BRANCHES] and [PUNCH_RADIUS], [calculate_distance], the serializer,
    and the two builtins [round] and [float] (on strings). *)
Class Imports : Type := {
  BRANCHES : list Branch;
  PUNCH_RADIUS : float;
  calculate_distance : float -> float -> float -> float -> float;
  AttendanceSerializer : Attendance -> pyval;
  py_round : float -> Z -> float;
  float_of_str : string -> option float
}.

(** ** Query sets *)

(** [filter(user=user, punch_in_time__date=today)]. *)
Definition on_day (u : Z) (d : date) (a : Attendance) : bool :=
  (user a =? u) &&
  match punch_in_time a with
  | Some t => dt_date t =? d
  | None => false
  end.

(** [punch_out_time__isnull=True]. *)
Definition punch_out_isnull (a : Attendance) : bool :=
  match punch_out_time a with
  | None => true
  | Some _ => false
  end.

(** [filter(user=user, punch_in_time__date=today, punch_out_time__isnull=True)]. *)
Definition active_on_day (u : Z) (d : date) (a : Attendance) : bool :=
  on_day u d a && punch_out_isnull a.

(** [.order_by('-id').first()]: the row with the greatest primary key. *)
Fixpoint last_by_id (l : list Attendance) : option Attendance :=
  match l with
  | [] => None
  | a :: l' =>
      match last_by_id l' with
      | None => Some a
      | Some b => if id b <? id a then Some a else Some b
      end
  end.

(** [.first()] on a query set without ordering: Django orders it by
    primary key, so it is the row with the least primary key. *)
Fixpoint first_by_id (l : list Attendance) : option Attendance :=
  match l with
  | [] => None
  | a :: l' =>
      match first_by_id l' with
      | None => Some a
      | Some b => if id a <? id b then Some a else Some b
      end
  end.

(** The record the punch-in and today-status views work on. *)
Definition todays_latest (u : Z) (d : date) (db : Store) : option Attendance :=
  last_by_id (filter (on_day u d) (rows db)).

(** The record the punch-out view works on. *)
Definition todays_active (u : Z) (d : date) (db : Store) : option Attendance :=
  first_by_id (filter (active_on_day u d) (rows db)).

(** [Attendance.objects.create(user=, punch_in_time=, punch_in_lat=, punch_in_lon=)]. *)
Definition objects_create (u : Z) (t : datetime) (la lo : float) (db : Store)
  : Attendance * Store :=
  let a := {| id := next_id db; user := u;
              punch_in_time := Some t;
              punch_in_lat := Some la; punch_in_lon := Some lo;
              punch_out_time := None;
              punch_out_lat := None; punch_out_lon := None |} in
  (a, {| rows := rows db ++ [a]; next_id := next_id db + 1 |}).

(** [attendance.save()] of a row read from the table: the row with its
    primary key is replaced. *)
Definition replace_row (a r : Attendance) : Attendance :=
  if id r =? id a then a else r.

Definition save (a : Attendance) (db : Store) : Store :=
  {| rows := map (replace_row a) (rows db); next_id := next_id db |}.

(** The assignments of the re-punch-in branch. *)
Definition restart_cycle (a : Attendance) (t : datetime) (la lo : float) : Attendance :=
  {| id := id a; user := user a;
     punch_in_time := Some t;
     punch_in_lat := Some la; punch_in_lon := Some lo;
     punch_out_time := None;
     punch_out_lat := None; punch_out_lon := None |}.

(** The assignments of the punch-out view. *)
Definition close_cycle (a : Attendance) (t : datetime) (la lo : float) : Attendance :=
  {| id := id a; user := user a;
     punch_in_time := punch_in_time a;
     punch_in_lat := punch_in_lat a; punch_in_lon := punch_in_lon a;
     punch_out_time := Some t;
     punch_out_lat := Some la; punch_out_lon := Some lo |}.

(** ** The views *)

Section Views.

Context {imports : Imports}.

(** The builtin [float] applied to a value of [request.data]. *)
Definition py_float (v : pyval) : result float :=
  match v with
  | PyFloat f => Ok f
  | PyBool b => Ok (if b then 1%float else 0%float)
  | PyStr s =>
      match float_of_str s with
      | Some f => Ok f
      | None => Raise ValueError
      end
  | PyNone | PyDatetime _ | PyDict _ => Raise TypeError
  end.

(** [detect_branch(user_lat, user_lon)]: the loop over [BRANCHES] returns at
    the first branch within [PUNCH_RADIUS]. *)
Fixpoint detect_branch_loop (user_lat user_lon : float) (branches : list Branch)
  : bool * option string * option float :=
  match branches with
  | [] => (false, None, None)
  | branch :: rest =>
      let dist := calculate_distance user_lat user_lon (lat branch) (lon branch) in
      if py_le dist PUNCH_RADIUS then (true, Some (name branch), Some dist)
      else detect_branch_loop user_lat user_lon rest
  end.

Definition detect_branch (user_lat user_lon : float)
  : bool * option string * option float :=
  detect_branch_loop user_lat user_lon BRANCHES.

(** One iteration of the nearest-branch loop, on the pair
    [(nearest_branch, nearest_distance)]. *)
Definition nearest_step (user_lat user_lon : float)
  (acc : option Branch * float) (b : Branch) : option Branch * float :=
  let dist := calculate_distance user_lat user_lon (lat b) (lon b) in
  if py_lt dist (snd acc) then (Some b, dist) else acc.

Definition nearest_loop (user_lat user_lon : float) (branches : list Branch)
  (acc : option Branch * float) : option Branch * float :=
  fold_left (nearest_step user_lat user_lon) branches acc.

(** The loop that both punch views run, from [(None, float("inf"))]. *)
Definition find_nearest (user_lat user_lon : float) : option Branch * float :=
  nearest_loop user_lat user_lon BRANCHES (None, infinity).

(** The response bodies. *)
Definition coordinates_required : Response :=
  {| resp_data := [("status", PyStr "failed");
                   ("message", PyStr "latitude & longitude are required")];
     status_code := 400 |}.

Definition punch_in_out_of_range (b : Branch) (d : float) : Response :=
  {| resp_data := [("status", PyStr "failed");
                   ("message", PyStr "You are out of range");
                   ("nearest_branch", PyStr (name b));
                   ("distance", PyFloat (py_round d 2))];
     status_code := 400 |}.

Definition already_punched_in (a : Attendance) : Response :=
  {| resp_data := [("status", PyStr "failed");
                   ("message", PyStr "You are already punched in today");
                   ("data", AttendanceSerializer a)];
     status_code := 400 |}.

Definition punch_in_success (message : string) (b : Branch) (d : float)
  (a : Attendance) : Response :=
  {| resp_data := [("status", PyStr "success");
                   ("message", PyStr (String.append message
                                        (String.append " at " (name b))));
                   ("branch", PyStr (name b));
                   ("distance", PyFloat (py_round d 2));
                   ("data", AttendanceSerializer a)];
     status_code := 201 |}.

Definition not_punched_in : Response :=
  {| resp_data := [("status", PyStr "failed");
                   ("message", PyStr "You have not punched in today")];
     status_code := 400 |}.

Definition punch_out_out_of_range (b : Branch) (d : float) : Response :=
  {| resp_data := [("status", PyStr "failed");
                   ("message", PyStr (String.append "You are out of range for "
                                        (name b)));
                   ("distance", PyFloat (py_round d 2));
                   ("branch", PyStr (name b))];
     status_code := 400 |}.

Definition punch_out_success (b : Branch) (d : float) (a : Attendance) : Response :=
  {| resp_data := [("status", PyStr "success");
                   ("message", PyStr "Punch out successful");
                   ("branch", PyStr (name b));
                   ("distance", PyFloat (py_round d 2));
                   ("data", AttendanceSerializer a)];
     status_code := 200 |}.

Definition no_attendance_today : Response :=
  {| resp_data := [("status", PyStr "success");
                   ("data", PyDict [("is_punched_in", PyBool false);
                                    ("has_punched_out", PyBool false);
                                    ("punch_in_time", PyNone);
                                    ("punch_out_time", PyNone);
                                    ("branch", PyNone);
                                    ("distance", PyNone)])];
     status_code := 200 |}.

(** The model has no [branch_name] attribute, so
    [getattr(attendance, "branch_name", None)] is [None]. *)
Definition attendance_today (a : Attendance) : Response :=
  let is_punched_in :=
    match punch_in_time a with Some _ => true | None => false end in
  let has_punched_out :=
    match punch_out_time a with Some _ => true | None => false end in
  {| resp_data := [("status", PyStr "success");
                   ("data", PyDict [("is_punched_in",
                                     PyBool (is_punched_in && negb has_punched_out));
                                    ("has_punched_out", PyBool has_punched_out);
                                    ("punch_in_time", opt_datetime (punch_in_time a));
                                    ("punch_out_time", opt_datetime (punch_out_time a));
                                    ("branch", PyNone);
                                    ("distance", PyNone);
                                    ("raw", AttendanceSerializer a)])];
     status_code := 200 |}.

(** The success response of punch-in reads [nearest_branch["name"]], which
    raises [TypeError] when the loop left [nearest_branch] at [None]; the
    table has been written by then. *)
Definition punch_in_respond (message : string) (nearest_branch : option Branch)
  (nearest_distance : float) (a : Attendance) (db : Store)
  : result Response * Store :=
  match nearest_branch with
  | Some b => (Ok (punch_in_success message b nearest_distance a), db)
  | None => (Raise TypeError, db)
  end.

(** [PunchInView.post]. *)
Definition PunchInView_post (clock : Clock) (request : Request) (db : Store)
  : result Response * Store :=
  let user := req_user request in
  if negb (dict_in "latitude" (data request))
     || negb (dict_in "longitude" (data request))
  then (Ok coordinates_required, db)
  else
    match py_float (dict_get "latitude" (data request)) with
    | Raise e => (Raise e, db)
    | Ok user_lat =>
    match py_float (dict_get "longitude" (data request)) with
    | Raise e => (Raise e, db)
    | Ok user_lon =>
      let attendance := todays_latest user (today clock) db in
      let '(nearest_branch, nearest_distance) := find_nearest user_lat user_lon in
      if py_gt nearest_distance PUNCH_RADIUS then
        match nearest_branch with
        | Some b => (Ok (punch_in_out_of_range b nearest_distance), db)
        | None => (Raise TypeError, db)
        end
      else
        match attendance with
        | Some a =>
            match punch_out_time a with
            | None => (Ok (already_punched_in a), db)
            | Some _ =>
                let a' := restart_cycle a (now clock) user_lat user_lon in
                punch_in_respond "Punch in updated successfully"
                  nearest_branch nearest_distance a' (save a' db)
            end
        | None =>
            let '(a', db') :=
              objects_create user (now clock) user_lat user_lon db in
            punch_in_respond "Punch in successful"
              nearest_branch nearest_distance a' db'
        end
    end
    end.

(** [PunchOutView.post]. *)
Definition PunchOutView_post (clock : Clock) (request : Request) (db : Store)
  : result Response * Store :=
  let user := req_user request in
  if negb (dict_in "latitude" (data request))
     || negb (dict_in "longitude" (data request))
  then (Ok coordinates_required, db)
  else
    match py_float (dict_get "latitude" (data request)) with
    | Raise e => (Raise e, db)
    | Ok user_lat =>
    match py_float (dict_get "longitude" (data request)) with
    | Raise e => (Raise e, db)
    | Ok user_lon =>
      match todays_active user (today clock) db with
      | None => (Ok not_punched_in, db)
      | Some a =>
          let '(nearest_branch, distance) := find_nearest user_lat user_lon in
          if py_gt distance PUNCH_RADIUS then
            match nearest_branch with
            | Some b => (Ok (punch_out_out_of_range b distance), db)
            | None => (Raise TypeError, db)
            end
          else
            let a' := close_cycle a (now clock) user_lat user_lon in
            let db' := save a' db in
            match nearest_branch with
            | Some b => (Ok (punch_out_success b distance a'), db')
            | None => (Raise TypeError, db')
            end
      end
    end
    end.

(** [TodayAttendanceView.get]. *)
Definition TodayAttendanceView_get (clock : Clock) (request : Request) (db : Store)
  : result Response * Store :=
  let user := req_user request in
  match todays_latest user (today clock) db with
  | None => (Ok no_attendance_today, db)
  | Some a => (Ok (attendance_today a), db)
  end.

End Views.

(** ** Outcomes, as the specification names them *)

Section Outcomes.

Context {imports : Imports}.

(** The distance from the user's coordinate to a branch, as both loops
    compute it. *)
Definition dist_to (user_lat user_lon : float) (b : Branch) : float :=
  calculate_distance user_lat user_lon (lat b) (lon b).

(** What the nearest-branch loop holds after the branches [seen]: nothing
    before the first branch, and afterwards a branch of [seen] that is no
    farther than any other and strictly nearer than every branch before
    it. *)
Definition nearest_so_far (user_lat user_lon : float) (seen : list Branch)
  (acc : option Branch * float) : Prop :=
  (seen = [] /\ acc = (None, infinity)) \/
  exists before b after,
    seen = before ++ b :: after /\
    acc = (Some b, dist_to user_lat user_lon b) /\
    (forall b', In b' seen ->
       py_le (dist_to user_lat user_lon b) (dist_to user_lat user_lon b') = true) /\
    (forall b', In b' before ->
       py_lt (dist_to user_lat user_lon b) (dist_to user_lat user_lon b') = true).

(** A rejection: status code 400 and the body's status ['failed']. *)
Definition rejected (r : Response) : Prop :=
  status_code r = 400 /\
  dict_lookup "status" (resp_data r) = Some (PyStr "failed").

Definition message_of (r : Response) : string :=
  match dict_lookup "message" (resp_data r) with
  | Some (PyStr m) => m
  | _ => EmptyString
  end.

Definition ValidationError (r : Response) : Prop :=
  rejected r /\ message_of r = "latitude & longitude are required".

(** The out-of-range rejection names the nearest branch (under the key
    ["nearest_branch"] at punch-in, ["branch"] at punch-out) and carries
    the distance, rounded to two places. *)
Definition OutOfRangeError (r : Response) (b : Branch) (d : float) : Prop :=
  rejected r /\
  String.prefix "You are out of range" (message_of r) = true /\
  (dict_lookup "nearest_branch" (resp_data r) = Some (PyStr (name b)) \/
   dict_lookup "branch" (resp_data r) = Some (PyStr (name b))) /\
  dict_lookup "distance" (resp_data r) = Some (PyFloat (py_round d 2)).

Definition AlreadyPunchedInError (r : Response) : Prop :=
  rejected r /\ message_of r = "You are already punched in today".

Definition NotPunchedInError (r : Response) : Prop :=
  rejected r /\ message_of r = "You have not punched in today".

(** A successful punch-in: status code 201, a message that starts with
    [msg], the branch name, the rounded distance and the serialized row. *)
Definition PunchInSuccess (r : Response) (msg : string) (b : Branch) (d : float)
  (a : Attendance) : Prop :=
  status_code r = 201 /\
  dict_lookup "status" (resp_data r) = Some (PyStr "success") /\
  String.prefix msg (message_of r) = true /\
  dict_lookup "branch" (resp_data r) = Some (PyStr (name b)) /\
  dict_lookup "distance" (resp_data r) = Some (PyFloat (py_round d 2)) /\
  dict_lookup "data" (resp_data r) = Some (AttendanceSerializer a).

(** A successful punch-out: status code 200, the branch name, the rounded
    distance and the serialized row. *)
Definition PunchOutSuccess (r : Response) (b : Branch) (d : float)
  (a : Attendance) : Prop :=
  status_code r = 200 /\
  dict_lookup "status" (resp_data r) = Some (PyStr "success") /\
  dict_lookup "branch" (resp_data r) = Some (PyStr (name b)) /\
  dict_lookup "distance" (resp_data r) = Some (PyFloat (py_round d 2)) /\
  dict_lookup "data" (resp_data r) = Some (AttendanceSerializer a).

(** The request carries both coordinates and [float] converts them. *)
Definition coordinates (request : Request) (user_lat user_lon : float) : Prop :=
  dict_in "latitude" (data request) = true /\
  dict_in "longitude" (data request) = true /\
  py_float (dict_get "latitude" (data request)) = Ok user_lat /\
  py_float (dict_get "longitude" (data request)) = Ok user_lon.

(** A field of the status projection, [response.data["data"][k]]. *)
Definition status_field (k : string) (r : result Response) : option pyval :=
  match r with
  | Ok resp => dict_lookup2 "data" k (resp_data resp)
  | Raise _ => None
  end.

End Outcomes.

(** ** A configuration to run the views on

    Two branches on a meridian, a radius of 100, and a grid distance that
    counts 1024 units per degree.  Rounding is left out and no string is
    read as a number; the requests below carry numbers. *)

Definition grid_distance (lat1 lon1 lat2 lon2 : float) : float :=
  ((PrimFloat.abs (lat1 - lat2) + PrimFloat.abs (lon1 - lon2)) * 1024)%float.

Definition head_office : Branch :=
  {| name := "Head Office"; lat := 28.5%float; lon := 77.25%float |}.

Definition annex : Branch :=
  {| name := "Annex"; lat := 28.626953125%float; lon := 77.25%float |}.

Definition summary (a : Attendance) : pyval :=
  PyDict [("punch_in_time", opt_datetime (punch_in_time a));
          ("punch_out_time", opt_datetime (punch_out_time a))].

Definition demo : Imports :=
  {| BRANCHES := [head_office; annex];
     PUNCH_RADIUS := 100%float;
     calculate_distance := grid_distance;
     AttendanceSerializer := summary;
     py_round := fun x _ => x;
     float_of_str := fun _ => None |}.

Definition at_point (u : Z) (la lo : float) : Request :=
  {| req_user := u; data := [("latitude", PyFloat la); ("longitude", PyFloat lo)] |}.

(** 50 from the head office and 80 from the annex. *)
Definition near_head_office : Request := at_point 7 28.548828125%float 77.25%float.

(** 80 from the head office and 50 from the annex. *)
Definition near_annex : Request := at_point 7 28.578125%float 77.25%float.

(** 65 from both branches. *)
Definition halfway : Request := at_point 7 28.5634765625%float 77.25%float.

(** 1024 from the head office and 894 from the annex. *)
Definition far_away : Request := at_point 7 29.5%float 77.25%float.

(** Exactly 100 from the head office. *)
Definition on_the_boundary : Request := at_point 7 28.40234375%float 77.25%float.

Definition null_coordinates : Request :=
  {| req_user := 7; data := [("latitude", PyNone); ("longitude", PyNone)] |}.

Definition morning : Clock :=
  {| today := 20000; now := {| dt_date := 20000; dt_time := 32400000000 |} |}.

Definition evening : Clock :=
  {| today := 20000; now := {| dt_date := 20000; dt_time := 64800000000 |} |}.

Definition empty_table : Store := {| rows := []; next_id := 1 |}.

Definition open_row (i : Z) : Attendance :=
  {| id := i; user := 7;
     punch_in_time := Some {| dt_date := 20000; dt_time := 30000000000 |};
     punch_in_lat := Some 28.5%float; punch_in_lon := Some 77.25%float;
     punch_out_time := None; punch_out_lat := None; punch_out_lon := None |}.

Definition closed_row (i : Z) : Attendance :=
  {| id := i; user := 7;
     punch_in_time := Some {| dt_date := 20000; dt_time := 30000000000 |};
     punch_in_lat := Some 28.5%float; punch_in_lon := Some 77.25%float;
     punch_out_time := Some {| dt_date := 20000; dt_time := 31000000000 |};
     punch_out_lat := Some 28.5%float; punch_out_lon := Some 77.25%float |}.

Definition punched_in_table : Store := {| rows := [open_row 1]; next_id := 2 |}.

Definition punched_out_table : Store := {| rows := [closed_row 1]; next_id := 2 |}.

(** Two rows for one user and day: the older one open, the newer one
    closed. *)
Definition two_rows_table : Store :=
  {| rows := [open_row 1; closed_row 2]; next_id := 3 |}.

(** ** Invariants of the attendance table *)

(** Every user has at most one row for each day. *)
Definition one_row_per_day (db : Store) : Prop :=
  forall u d, (List.length (filter (on_day u d) (rows db)) <= 1)%nat.

(** The rows of the table that belong to other users than [u]. *)
Definition rows_of_others (u : Z) (db : Store) : list Attendance :=
  filter (fun a => negb (user a =? u)) (rows db).

(** ** Signing in: [GoogleAuthView.post] *)

(** Modelled from the spec: the user model behind [get_user_model()],
    which is not part of the sources.  A user has a primary key and the
    fields the view reads and writes; users are found by their email. *)
Module User.
Record t : Type := mk {
  pk : Z;
  email : string;
  name : pyval;
  picture : pyval;
  lastlogin : datetime
}.
End User.

Record UserStore : Type := mkUserStore {
  users : list User.t;
  next_pk : Z
}.

(** Primary keys are unique and below the sequence value, and no two users
    share an email. *)
Definition wf_users (us : UserStore) : Prop :=
  NoDup (map User.pk (users us)) /\
  Forall (fun u => User.pk u < next_pk us) (users us) /\
  NoDup (map User.email (users us)).

(** The exceptions the [try] block of the view tells apart: [InvalidValue]
    with its text, and every other exception. *)
Inductive auth_exn : Type :=
| InvalidValue (e : string)
| OtherException.

(** The answers of the view: [Response({"error": ...}, status=...)], and
    the body with the two tokens and the user's data (status 200). *)
Inductive AuthResponse : Type :=
| AuthError (error : string) (status : Z)
| AuthTokens (access refresh : string) (email : string)
    (name picture : pyval) (user_id : Z).

(** What the view takes from [settings] and from the two token libraries:
    [verify_oauth2_token] answers with the token's claims or raises, and
    the two encoders stand for [str(refresh.access_token)] and
    [str(refresh)] of the refresh token of a user with its added claims. *)
Class AuthImports : Type := {
  GOOGLE_CLIENT_ID : string;
  WHITELISTED_EMAILS : list string;
  verify_oauth2_token : pyval -> string -> Z -> dict + auth_exn;
  str_access_token : User.t -> dict -> string;
  str_refresh : User.t -> dict -> string
}.

(** Python's truth value, as [if not token] takes it. *)
Definition truthy (v : pyval) : bool :=
  match v with
  | PyNone => false
  | PyBool b => b
  | PyFloat f => negb (PrimFloat.eqb f 0%float)
  | PyStr s => negb (String.eqb s "")
  | PyDatetime _ => true
  | PyDict d => match d with [] => false | _ :: _ => true end
  end.

(** [User.objects.get_or_create(email=, defaults=)]: the user with that
    email when there is exactly one, a new user when there is none, and
    [MultipleObjectsReturned] otherwise. *)
Definition get_or_create (e : string) (nm pic : pyval) (t : datetime)
  (us : UserStore) : (User.t * bool * UserStore) + auth_exn :=
  match filter (fun u => String.eqb (User.email u) e) (users us) with
  | [] =>
      let u := {| User.pk := next_pk us; User.email := e; User.name := nm;
                  User.picture := pic; User.lastlogin := t |} in
      inl (u, true, {| users := users us ++ [u]; next_pk := next_pk us + 1 |})
  | [u] => inl (u, false, us)
  | _ :: _ :: _ => inr OtherException
  end.

(** [user.save()]: the user with that primary key is replaced. *)
Definition replace_user (u r : User.t) : User.t :=
  if User.pk r =? User.pk u then u else r.

Definition save_user (u : User.t) (us : UserStore) : UserStore :=
  {| users := map (replace_user u) (users us); next_pk := next_pk us |}.

Section SignIn.

Context {auth : AuthImports}.

(** [email not in settings.WHITELISTED_EMAILS], answering with the email
    as a string when it is in the list. *)
Definition whitelisted (email : pyval) : option string :=
  match email with
  | PyStr s => if existsb (String.eqb s) WHITELISTED_EMAILS then Some s else None
  | _ => None
  end.

(** The two handlers of the [try] block. *)
Definition auth_failure (e : auth_exn) : AuthResponse :=
  match e with
  | InvalidValue msg =>
      AuthError (String.append "Invalid token (details: " (String.append msg ")")) 400
  | OtherException => AuthError "Invalid token (internal error)" 400
  end.

(** [GoogleAuthView.post].  The clock reading is the one that ends up in
    [lastlogin]. *)
Definition GoogleAuthView_post (clock : Clock) (request : Request) (us : UserStore)
  : AuthResponse * UserStore :=
  let token := dict_get "id_token" (data request) in
  if negb (truthy token) then (AuthError "id_token required" 400, us)
  else
    match verify_oauth2_token token GOOGLE_CLIENT_ID 300 with
    | inr e => (auth_failure e, us)
    | inl info =>
        let email := dict_get "email" info in
        let name :=
          match dict_lookup "name" info with Some v => v | None => email end in
        let picture := dict_get "picture" info in
        match whitelisted email with
        | None => (AuthError "Not allowed" 403, us)
        | Some e =>
            match get_or_create e name picture (now clock) us with
            | inr exn => (auth_failure exn, us)
            | inl (user, created, us1) =>
                let user' :=
                  if created then user
                  else {| User.pk := User.pk user; User.email := User.email user;
                          User.name := name; User.picture := picture;
                          User.lastlogin := now clock |} in
                let us2 := if created then us1 else save_user user' us1 in
                let refresh := [("email", PyStr (User.email user'));
                                ("name", User.name user');
                                ("picture", User.picture user')] in
                (AuthTokens (str_access_token user' refresh)
                   (str_refresh user' refresh)
                   e name picture (User.pk user'), us2)
            end
        end
    end.

End SignIn.

(** A sign-in configuration: one allowed email, and a verifier that
    accepts three tokens. *)
Definition demo_auth : AuthImports :=
  {| GOOGLE_CLIENT_ID := "client-1";
     WHITELISTED_EMAILS := ["asha@example.com"];
     verify_oauth2_token := fun token _ _ =>
       match token with
       | PyStr "asha" => inl [("email", PyStr "asha@example.com");
                              ("name", PyStr "Asha");
                              ("picture", PyStr "asha.png")]
       | PyStr "asha-renamed" => inl [("email", PyStr "asha@example.com");
                                      ("picture", PyStr "new.png")]
       | PyStr "guest" => inl [("email", PyStr "guest@example.com")]
       | _ => inr (InvalidValue "Wrong number of segments")
       end;
     str_access_token := fun u _ => String.append "access:" (User.email u);
     str_refresh := fun u _ => String.append "refresh:" (User.email u) |}.

Definition with_token (v : pyval) : Request :=
  {| req_user := 0; data := [("id_token", v)] |}.

Definition no_users : UserStore := {| users := []; next_pk := 1 |}.

(** The configuration with no branch. *)
Definition no_branches : Imports :=
  {| BRANCHES := [];
     PUNCH_RADIUS := 100%float;
     calculate_distance := grid_distance;
     AttendanceSerializer := summary;
     py_round := fun x _ => x;
     float_of_str := fun _ => None |}.

(** A table with an open row of user 8 and a closed row of user 7. *)
Definition shared_table : Store :=
  {| rows := [ {| id := 1; user := 8;
                  punch_in_time := Some {| dt_date := 20000; dt_time := 29000000000 |};
                  punch_in_lat := Some 28.5%float; punch_in_lon := Some 77.25%float;
                  punch_out_time := None;
                  punch_out_lat := None; punch_out_lon := None |};
               closed_row 2 ];
     next_id := 3 |}.

Definition without_coordinates : Request := {| req_user := 7; data := [] |}.

(** The response of a view that answered. *)
Definition answer_of (x : result Response * Store) : Response :=
  match fst x with
  | Ok r => r
  | Raise _ => {| resp_data := []; status_code := 500 |}
  end.

Example demo_distances :
  let I := demo in
  find_nearest 28.548828125%float 77.25%float = (Some head_office, 50%float) /\
  find_nearest 28.578125%float 77.25%float = (Some annex, 50%float) /\
  find_nearest 28.5634765625%float 77.25%float = (Some head_office, 65%float) /\
  find_nearest 29.5%float 77.25%float = (Some annex, 894%float) /\
  find_nearest 28.40234375%float 77.25%float = (Some head_office, 100%float).
Proof. repeat split; vm_compute; reflexivity. Qed.

(** * Properties *)

(** ** The order of floats

    The comparisons of primitive floats are specified by [SFcompare] on
    their decoded form; the facts below are the ones the loops rely on.
    [py_le x x = true] says that [x] is not NaN. *)

Ltac sf_cases :=
  simpl; try discriminate; try congruence;
  repeat match goal with s : bool |- _ => destruct s end;
  simpl; try discriminate; try congruence;
  repeat match goal with
         | |- context [Z.compare ?a ?b] => destruct (Z.compare_spec a b)
         | H : context [Z.compare ?a ?b] |- _ => destruct (Z.compare_spec a b)
         end;
  try discriminate; try lia; try congruence; subst;
  rewrite ?Pos.compare_cont_spec in *; simpl in *;
  repeat match goal with
         | |- context [Pos.compare ?a ?b] => destruct (Pos.compare_spec a b)
         | H : context [Pos.compare ?a ?b] |- _ => destruct (Pos.compare_spec a b)
         end;
  simpl in *; try discriminate; try lia; try congruence.

Lemma SFltb_irrefl x : SFltb x x = false.
Proof. unfold SFltb. destruct x as [sx|sx| |sx mx ex]; sf_cases. Qed.

Lemma SFltb_leb_trans x y z :
  SFltb x y = true -> SFleb y z = true -> SFltb x z = true.
Proof.
  unfold SFltb, SFleb.
  destruct x as [sx|sx| |sx mx ex], y as [sy|sy| |sy my ey],
           z as [sz|sz| |sz mz ez]; sf_cases.
Qed.

Lemma SFltb_leb x y : SFltb x y = true -> SFleb x y = true.
Proof. unfold SFltb, SFleb. destruct (SFcompare x y) as [[]|]; congruence. Qed.

Lemma SFleb_total x y :
  SFltb x y = false -> SFleb x x = true -> SFleb y y = true -> SFleb y x = true.
Proof.
  unfold SFltb, SFleb.
  destruct x as [sx|sx| |sx mx ex], y as [sy|sy| |sy my ey]; sf_cases.
Qed.

Lemma SFltb_number x y : SFltb x y = true -> SFleb x x = true.
Proof.
  unfold SFltb, SFleb.
  destruct x as [sx|sx| |sx mx ex], y as [sy|sy| |sy my ey]; sf_cases.
Qed.

Lemma SFleb_not_ltb x y : SFleb x y = true -> SFltb y x = false.
Proof.
  unfold SFltb, SFleb.
  destruct x as [sx|sx| |sx mx ex], y as [sy|sy| |sy my ey]; sf_cases.
Qed.

Lemma SFeqb_not_ltb x y : SFeqb x y = true -> SFltb y x = false.
Proof.
  unfold SFltb, SFeqb.
  destruct x as [sx|sx| |sx mx ex], y as [sy|sy| |sy my ey]; sf_cases.
Qed.

Lemma py_lt_irrefl x : py_lt x x = false.
Proof. unfold py_lt. rewrite ltb_spec. apply SFltb_irrefl. Qed.

Lemma py_gt_irrefl x : py_gt x x = false.
Proof. apply py_lt_irrefl. Qed.

Lemma py_lt_le_trans x y z :
  py_lt x y = true -> py_le y z = true -> py_lt x z = true.
Proof. unfold py_lt, py_le. rewrite !ltb_spec, leb_spec. apply SFltb_leb_trans. Qed.

Lemma py_lt_le x y : py_lt x y = true -> py_le x y = true.
Proof. unfold py_lt, py_le. rewrite ltb_spec, leb_spec. apply SFltb_leb. Qed.

Lemma py_le_total x y :
  py_lt x y = false -> py_le x x = true -> py_le y y = true -> py_le y x = true.
Proof. unfold py_lt, py_le. rewrite ltb_spec, !leb_spec. apply SFleb_total. Qed.

Lemma py_lt_number x y : py_lt x y = true -> py_le x x = true.
Proof. unfold py_lt, py_le. rewrite ltb_spec, leb_spec. apply SFltb_number. Qed.

Lemma py_eq_not_gt x y : py_eq x y = true -> py_gt x y = false.
Proof. unfold py_gt, py_eq. rewrite ltb_spec, eqb_spec. apply SFeqb_not_ltb. Qed.

Lemma py_le_not_gt x y : py_le x y = true -> py_gt x y = false.
Proof. unfold py_gt, py_le. rewrite ltb_spec, leb_spec. apply SFleb_not_ltb. Qed.

(** ** Selecting a row *)

Lemma last_by_id_spec (l : list Attendance) :
  match last_by_id l with
  | Some a => In a l /\ forall b, In b l -> id b <= id a
  | None => l = []
  end.
Proof.
  induction l as [|a l IH]; simpl; [reflexivity|].
  destruct (last_by_id l) as [b|].
  - destruct IH as [Hin Hmax].
    destruct (Z.ltb_spec (id b) (id a)).
    + split; [now left|]. intros c [<-|Hc]; [lia|]. specialize (Hmax c Hc). lia.
    + split; [now right|]. intros c [<-|Hc]; [lia|]. now apply Hmax.
  - subst l. split; [now left|]. intros c [<-|[]]; lia.
Qed.

Lemma first_by_id_spec (l : list Attendance) :
  match first_by_id l with
  | Some a => In a l /\ forall b, In b l -> id a <= id b
  | None => l = []
  end.
Proof.
  induction l as [|a l IH]; simpl; [reflexivity|].
  destruct (first_by_id l) as [b|].
  - destruct IH as [Hin Hmin].
    destruct (Z.ltb_spec (id a) (id b)).
    + split; [now left|]. intros c [<-|Hc]; [lia|]. specialize (Hmin c Hc). lia.
    + split; [now right|]. intros c [<-|Hc]; [lia|]. now apply Hmin.
  - subst l. split; [now left|]. intros c [<-|[]]; lia.
Qed.

Lemma filter_nil_iff {A} (f : A -> bool) (l : list A) :
  filter f l = [] <-> forall x, In x l -> f x = false.
Proof.
  split.
  - intros H x Hx. destruct (f x) eqn:E; [|reflexivity].
    assert (In x (filter f l)) by (apply filter_In; auto).
    rewrite H in *. contradiction.
  - intros H. induction l as [|a l IH]; simpl; [reflexivity|].
    rewrite (H a) by now left. apply IH. intros x Hx. apply H. now right.
Qed.

(** C9, as the code has it: punch-in and today-status work on the row of
    the user and day with the greatest primary key; punch-out works on a row
    of the user and day whose punch-out time is null, and on none when
    every row of the day is closed. *)
Theorem todays_record_selection (u : Z) (d : date) (db : Store) :
  match todays_latest u d db with
  | Some a => In a (rows db) /\ on_day u d a = true /\
              forall b, In b (rows db) -> on_day u d b = true -> id b <= id a
  | None => forall b, In b (rows db) -> on_day u d b = false
  end /\
  match todays_active u d db with
  | Some a => In a (rows db) /\ on_day u d a = true /\ punch_out_time a = None
  | None => forall b, In b (rows db) -> on_day u d b = true ->
                      punch_out_time b <> None
  end.
Proof.
  unfold todays_latest, todays_active. split.
  - pose proof (last_by_id_spec (filter (on_day u d) (rows db))) as H.
    destruct (last_by_id _) as [a|].
    + destruct H as [Hin Hmax]. apply filter_In in Hin as [Hin Hday].
      repeat split; auto. intros b Hb Hbd. apply Hmax, filter_In. auto.
    + now apply filter_nil_iff.
  - pose proof (first_by_id_spec (filter (active_on_day u d) (rows db))) as H.
    destruct (first_by_id _) as [a|].
    + destruct H as [Hin _]. apply filter_In in Hin as [Hin Hact].
      unfold active_on_day, punch_out_isnull in Hact.
      apply andb_true_iff in Hact as [Hday Hnull].
      repeat split; auto.
      destruct (punch_out_time a); [discriminate|reflexivity].
    + intros b Hb Hbd Hbn.
      assert (E : active_on_day u d b = false)
        by (eapply filter_nil_iff; eassumption).
      unfold active_on_day, punch_out_isnull in E. rewrite Hbd, Hbn in E.
      discriminate.
Qed.

(** Of several open rows of the day, punch-out works on the one with the
    least primary key. *)
Lemma todays_active_least (u : Z) (d : date) (db : Store) (a : Attendance) :
  todays_active u d db = Some a ->
  forall b, In b (rows db) -> on_day u d b = true -> punch_out_time b = None ->
            id a <= id b.
Proof.
  unfold todays_active. intros E b Hb Hbd Hbn.
  pose proof (first_by_id_spec (filter (active_on_day u d) (rows db))) as H.
  rewrite E in H. destruct H as [_ Hmin]. apply Hmin, filter_In.
  split; [assumption|]. unfold active_on_day, punch_out_isnull.
  now rewrite Hbd, Hbn.
Qed.

(** C9 as it is worded fails for punch-out: with an older open row and a
    newer closed row of the same user and day, punch-out works on the older
    row, which is not the one with the greatest primary key. *)
Lemma punch_out_selection_counterexample :
  ~ (forall u d db a,
        todays_active u d db = Some a ->
        forall b, In b (rows db) -> on_day u d b = true -> id b <= id a).
Proof.
  intros H.
  specialize (H 7 20000 two_rows_table (open_row 1) eq_refl (closed_row 2)).
  simpl in H. assert (2 <= 1) by (apply H; auto). lia.
Qed.

Example punch_out_closes_the_older_row :
  let I := demo in
  snd (PunchOutView_post evening near_head_office two_rows_table) =
  {| rows := [close_cycle (open_row 1) (now evening) 28.548828125%float 77.25%float;
              closed_row 2];
     next_id := 3 |} /\
  todays_latest 7 20000 two_rows_table = Some (closed_row 2).
Proof. split; vm_compute; reflexivity. Qed.

(** ** Branch resolution *)

Section Resolution.

Context {imports : Imports}.

Variables user_lat user_lon : float.

Local Abbreviation dist := (dist_to user_lat user_lon).

Lemma nearest_step_so_far seen acc b :
  nearest_so_far user_lat user_lon seen acc ->
  py_lt (dist b) infinity = true ->
  nearest_so_far user_lat user_lon (seen ++ [b]) (nearest_step user_lat user_lon acc b).
Proof.
  intros [[-> ->]|(before & b0 & after & -> & -> & Hmin & Hfirst)] Hb;
    unfold nearest_step; simpl; fold (dist b).
  - rewrite Hb. right. exists [], b, []. repeat split.
    + intros b' [<-|[]]. eapply py_lt_number; eassumption.
    + intros b' [].
  - destruct (py_lt (dist b) (dist b0)) eqn:E; right.
    + exists (before ++ b0 :: after), b, []. repeat split.
      * intros b' Hin. apply in_app_or in Hin as [Hin|[<-|[]]].
        -- apply py_lt_le. eapply py_lt_le_trans; eauto.
        -- eapply py_lt_number; eassumption.
      * intros b' Hin. eapply py_lt_le_trans; eauto.
    + exists before, b0, (after ++ [b]). repeat split.
      * now rewrite <- app_assoc.
      * intros b' Hin. apply in_app_or in Hin as [Hin|[<-|[]]]; [auto|].
        apply py_le_total; [assumption| |].
        -- eapply py_lt_number; eassumption.
        -- apply Hmin, in_elt.
      * assumption.
Qed.

Lemma nearest_loop_so_far rest : forall seen acc,
  nearest_so_far user_lat user_lon seen acc ->
  (forall b, In b rest -> py_lt (dist b) infinity = true) ->
  nearest_so_far user_lat user_lon (seen ++ rest)
    (nearest_loop user_lat user_lon rest acc).
Proof.
  induction rest as [|b rest IH]; intros seen acc Hacc Hfin; simpl.
  - now rewrite app_nil_r.
  - replace (seen ++ b :: rest) with ((seen ++ [b]) ++ rest)
      by (now rewrite <- app_assoc).
    apply IH.
    + apply nearest_step_so_far; [assumption|]. apply Hfin. now left.
    + intros b' Hb'. apply Hfin. now right.
Qed.

(** C6: when [BRANCHES] is not empty and every distance is a number below
    infinity, the loop of both punch views ends on a branch whose distance
    is least among all branches and strictly less than that of every branch
    listed before it (so of equally near branches the first one is kept),
    together with that distance; equal coordinates give the same answer. *)
Theorem find_nearest_minimal_first :
  BRANCHES <> [] ->
  (forall b, In b BRANCHES -> py_lt (dist b) infinity = true) ->
  (exists before b after,
      BRANCHES = before ++ b :: after /\
      find_nearest user_lat user_lon = (Some b, dist b) /\
      (forall b', In b' BRANCHES -> py_le (dist b) (dist b') = true) /\
      (forall b', In b' before -> py_lt (dist b) (dist b') = true)) /\
  (forall user_lat' user_lon',
      user_lat' = user_lat -> user_lon' = user_lon ->
      find_nearest user_lat' user_lon' = find_nearest user_lat user_lon).
Proof.
  intros Hne Hfin. split; [|intros ? ? -> ->; reflexivity].
  assert (H : nearest_so_far user_lat user_lon ([] ++ BRANCHES)
                (find_nearest user_lat user_lon)).
  { apply nearest_loop_so_far; [left; auto|exact Hfin]. }
  simpl in H. destruct H as [[Hnil _]|(before & b & after & E & Hacc & Hmin & Hfirst)].
  - contradiction.
  - exists before, b, after. auto.
Qed.

(** C10: [detect_branch] answers with the first branch of [BRANCHES] whose
    distance is at most [PUNCH_RADIUS], whatever the distances of the
    branches after it, and with [(False, None, None)] when no branch is
    within the radius. *)
Theorem detect_branch_first_in_range :
  (exists before b after,
      BRANCHES = before ++ b :: after /\
      (forall b', In b' before -> py_le (dist b') PUNCH_RADIUS = false) /\
      py_le (dist b) PUNCH_RADIUS = true /\
      detect_branch user_lat user_lon = (true, Some (name b), Some (dist b))) \/
  ((forall b, In b BRANCHES -> py_le (dist b) PUNCH_RADIUS = false) /\
   detect_branch user_lat user_lon = (false, None, None)).
Proof.
  unfold detect_branch. induction BRANCHES as [|b l IH]; simpl.
  - right. split; [intros b []|reflexivity].
  - fold (dist b). destruct (py_le (dist b) PUNCH_RADIUS) eqn:E.
    + left. exists [], b, l. repeat split; auto. intros b' [].
    + destruct IH as [(before & b0 & after & -> & Hout & Hin & Hres)|[Hout Hres]].
      * left. exists (b :: before), b0, after. repeat split; auto.
        intros b' [<-|Hb']; auto.
      * right. split; [|assumption]. intros b' [<-|Hb']; auto.
Qed.

End Resolution.

(** [detect_branch] need not answer with the nearest branch: 80 from the
    head office and 50 from the annex, it answers with the head office. *)
Example detect_branch_not_nearest :
  let I := demo in
  detect_branch 28.578125%float 77.25%float = (true, Some "Head Office", Some 80%float) /\
  find_nearest 28.578125%float 77.25%float = (Some annex, 50%float).
Proof. split; vm_compute; reflexivity. Qed.

(** Of two branches at distance 65 the loop keeps the first. *)
Example find_nearest_tie :
  let I := demo in
  find_nearest 28.5634765625%float 77.25%float = (Some head_office, 65%float) /\
  dist_to 28.5634765625%float 77.25%float annex = 65%float.
Proof. split; vm_compute; reflexivity. Qed.

Lemma find_nearest_minimal_first_witness :
  exists before b after,
    @BRANCHES demo = before ++ b :: after /\
    @find_nearest demo 28.548828125%float 77.25%float =
      (Some b, @dist_to demo 28.548828125%float 77.25%float b) /\
    (forall b', In b' (@BRANCHES demo) ->
       py_le (@dist_to demo 28.548828125%float 77.25%float b)
             (@dist_to demo 28.548828125%float 77.25%float b') = true) /\
    (forall b', In b' before ->
       py_lt (@dist_to demo 28.548828125%float 77.25%float b)
             (@dist_to demo 28.548828125%float 77.25%float b') = true).
Proof.
  apply (@find_nearest_minimal_first demo 28.548828125%float 77.25%float).
  - discriminate.
  - intros b [<-|[<-|[]]]; vm_compute; reflexivity.
Defined.

(** ** The punch views *)

Lemma prefix_append (p s : string) : String.prefix p (String.append p s) = true.
Proof.
  induction p as [|c p IH]; simpl; [now destruct s|].
  destruct (Ascii.ascii_dec c c); [assumption|contradiction].
Qed.

Lemma replace_row_id (a r : Attendance) : id (replace_row a r) = id r.
Proof.
  unfold replace_row. destruct (Z.eqb_spec (id r) (id a)); congruence.
Qed.

Lemma save_ids (a : Attendance) (db : Store) :
  map id (rows (save a db)) = map id (rows db).
Proof.
  unfold save; simpl. rewrite map_map. apply map_ext, replace_row_id.
Qed.

Lemma todays_latest_In u d db a :
  todays_latest u d db = Some a -> In a (rows db) /\ on_day u d a = true.
Proof.
  intros E. pose proof (todays_record_facts := last_by_id_spec (filter (on_day u d) (rows db))).
  unfold todays_latest in E. rewrite E in todays_record_facts.
  destruct todays_record_facts as [Hin _]. now apply filter_In in Hin.
Qed.

Lemma todays_active_In u d db a :
  todays_active u d db = Some a ->
  In a (rows db) /\ on_day u d a = true /\ punch_out_time a = None.
Proof.
  intros E. pose proof (first_by_id_spec (filter (active_on_day u d) (rows db))) as H.
  unfold todays_active in E. rewrite E in H. destruct H as [Hin _].
  apply filter_In in Hin as [Hin Hact]. unfold active_on_day in Hact.
  apply andb_true_iff in Hact as [Hday Hnull]. unfold punch_out_isnull in Hnull.
  repeat split; auto. destruct (punch_out_time a); [discriminate|reflexivity].
Qed.

Lemma todays_active_None u d db :
  (forall a, In a (rows db) -> on_day u d a = true -> punch_out_time a <> None) ->
  todays_active u d db = None.
Proof.
  intros H. unfold todays_active.
  replace (filter (active_on_day u d) (rows db)) with (@nil Attendance);
    [reflexivity|].
  symmetry. apply filter_nil_iff. intros a Ha. unfold active_on_day, punch_out_isnull.
  destruct (on_day u d a) eqn:E; [|reflexivity]. specialize (H a Ha E).
  destruct (punch_out_time a); [reflexivity|contradiction].
Qed.

Section Punching.

Context {imports : Imports}.

(** Rewrites a view with the coordinates the request carries. *)
Ltac with_coordinates H :=
  let H1 := fresh in let H2 := fresh in let H3 := fresh in let H4 := fresh in
  destruct H as (H1 & H2 & H3 & H4);
  unfold PunchInView_post, PunchOutView_post;
  rewrite H1, H2, H3, H4; cbn [negb orb].

Lemma punch_in_out_of_range_is_error b d :
  OutOfRangeError (punch_in_out_of_range b d) b d.
Proof. unfold OutOfRangeError, rejected; simpl. repeat split; auto. Qed.

Lemma punch_out_out_of_range_is_error b d :
  OutOfRangeError (punch_out_out_of_range b d) b d.
Proof. unfold OutOfRangeError, rejected; simpl. repeat split; auto. Qed.

(** C1, as the code has it: with both coordinates present and numeric and
    a nearest branch [b] at distance [d], punch-in is rejected as out of
    range, the table unchanged, exactly when [d > PUNCH_RADIUS]; so is
    punch-out, provided the user has an open row for the day; a distance
    equal to the radius ([d == PUNCH_RADIUS]) is not out of range. *)
Theorem out_of_range_iff clock request db user_lat user_lon b d :
  coordinates request user_lat user_lon ->
  find_nearest user_lat user_lon = (Some b, d) ->
  ((exists r, PunchInView_post clock request db = (Ok r, db) /\
              OutOfRangeError r b d)
   <-> py_gt d PUNCH_RADIUS = true) /\
  (forall a, todays_active (req_user request) (today clock) db = Some a ->
     ((exists r, PunchOutView_post clock request db = (Ok r, db) /\
                 OutOfRangeError r b d)
      <-> py_gt d PUNCH_RADIUS = true)) /\
  (py_eq d PUNCH_RADIUS = true -> py_gt d PUNCH_RADIUS = false).
Proof.
  intros Hc Hn. repeat split.
  - intros (r & E & Herr). destruct (py_gt d PUNCH_RADIUS) eqn:G; [reflexivity|].
    exfalso. revert E. with_coordinates Hc. rewrite Hn, G.
    destruct (todays_latest _ _ db) as [a|].
    + destruct (punch_out_time a).
      * simpl. intros E. injection E as <- _.
        destruct Herr as [[Hcode _] _]. discriminate.
      * intros E. injection E as <-.
        destruct Herr as (_ & Hmsg & _). discriminate.
    + simpl. intros E. injection E as <- _.
      destruct Herr as [[Hcode _] _]. discriminate.
  - intros G. with_coordinates Hc. rewrite Hn, G.
    eexists; split; [reflexivity|apply punch_in_out_of_range_is_error].
  - intros (r & E & Herr). destruct (py_gt d PUNCH_RADIUS) eqn:G; [reflexivity|].
    exfalso. revert E. with_coordinates Hc. rewrite H, Hn, G.
    intros E. injection E as <- _. destruct Herr as [[Hcode _] _]. discriminate.
  - intros G. with_coordinates Hc. rewrite H, Hn, G.
    eexists; split; [reflexivity|apply punch_out_out_of_range_is_error].
  - apply py_eq_not_gt.
Qed.

(** C2: a punch-in with both coordinates numeric and the nearest branch
    [b] at a distance [d] not above the radius.  When the user has no row
    for the day, one row is appended (punch-in time and coordinates set,
    punch-out fields null) and the message starts with "Punch in
    successful"; when the latest row of the day has a punch-out time, that
    row is overwritten in place (no row added, primary keys as before) and
    the message starts with "Punch in updated successfully".  Both answers
    carry the branch name and the distance. *)
Theorem punch_in_success_cases clock request db user_lat user_lon b d :
  coordinates request user_lat user_lon ->
  find_nearest user_lat user_lon = (Some b, d) ->
  py_gt d PUNCH_RADIUS = false ->
  (todays_latest (req_user request) (today clock) db = None ->
   let a := {| id := next_id db; user := req_user request;
               punch_in_time := Some (now clock);
               punch_in_lat := Some user_lat; punch_in_lon := Some user_lon;
               punch_out_time := None;
               punch_out_lat := None; punch_out_lon := None |} in
   exists r db',
     PunchInView_post clock request db = (Ok r, db') /\
     rows db' = rows db ++ [a] /\
     PunchInSuccess r "Punch in successful" b d a) /\
  (forall a0 t,
     todays_latest (req_user request) (today clock) db = Some a0 ->
     punch_out_time a0 = Some t ->
     let a := {| id := id a0; user := user a0;
                 punch_in_time := Some (now clock);
                 punch_in_lat := Some user_lat; punch_in_lon := Some user_lon;
                 punch_out_time := None;
                 punch_out_lat := None; punch_out_lon := None |} in
     exists r db',
       PunchInView_post clock request db = (Ok r, db') /\
       In a0 (rows db) /\
       rows db' = map (fun r' => if id r' =? id a0 then a else r') (rows db) /\
       List.length (rows db') = List.length (rows db) /\
       map id (rows db') = map id (rows db) /\
       PunchInSuccess r "Punch in updated successfully" b d a).
Proof.
  intros Hc Hn G. split.
  - intros E a. with_coordinates Hc. rewrite Hn, G, E. simpl.
    eexists _, _. split; [reflexivity|]. split; [reflexivity|].
    unfold PunchInSuccess, message_of; simpl. repeat split.
  - intros a0 t E Ht a. with_coordinates Hc. rewrite Hn, G, E, Ht. simpl.
    eexists _, _. split; [reflexivity|].
    split; [eapply todays_latest_In; eassumption|]. simpl.
    split; [reflexivity|]. split; [apply length_map|].
    split; [apply (save_ids (restart_cycle a0 (now clock) user_lat user_lon))|].
    unfold PunchInSuccess, message_of; simpl. repeat split.
Qed.

(** C3: a punch-in with both coordinates numeric and a nearest distance
    not above the radius, when the latest row of the day has no punch-out
    time, is rejected as already punched in; the table is unchanged and the
    answer carries that row. *)
Theorem punch_in_already_punched_in clock request db user_lat user_lon nb d a :
  coordinates request user_lat user_lon ->
  find_nearest user_lat user_lon = (nb, d) ->
  py_gt d PUNCH_RADIUS = false ->
  todays_latest (req_user request) (today clock) db = Some a ->
  punch_out_time a = None ->
  exists r,
    PunchInView_post clock request db = (Ok r, db) /\
    AlreadyPunchedInError r /\
    dict_lookup "data" (resp_data r) = Some (AttendanceSerializer a).
Proof.
  intros Hc Hn G E Hopen. with_coordinates Hc. rewrite Hn, G, E, Hopen.
  eexists. split; [reflexivity|].
  unfold AlreadyPunchedInError, rejected, message_of; simpl. auto.
Qed.

(** C4: a punch-out with both coordinates numeric, when the user has no
    row for the day with a null punch-out time, is rejected as not punched
    in and leaves the table unchanged, whatever the coordinates, the
    branches, the distance function and the radius are. *)
Theorem punch_out_not_punched_in clock request db user_lat user_lon :
  coordinates request user_lat user_lon ->
  (forall a, In a (rows db) ->
             on_day (req_user request) (today clock) a = true ->
             punch_out_time a <> None) ->
  PunchOutView_post clock request db = (Ok not_punched_in, db) /\
  NotPunchedInError not_punched_in.
Proof.
  intros Hc Hnone. with_coordinates Hc.
  rewrite (todays_active_None _ _ _ Hnone). split; [reflexivity|].
  unfold NotPunchedInError, rejected, message_of; simpl. auto.
Qed.

(** C5: a punch-out with both coordinates numeric, an open row [a] of the
    day and the nearest branch [b] at a distance [d] not above the radius
    writes the punch-out time and coordinates on that row and nothing
    else: its punch-in fields, user and primary key stay, no row is added.
    The answer carries the branch name and the distance. *)
Theorem punch_out_success_frame clock request db user_lat user_lon b d a :
  coordinates request user_lat user_lon ->
  todays_active (req_user request) (today clock) db = Some a ->
  find_nearest user_lat user_lon = (Some b, d) ->
  py_gt d PUNCH_RADIUS = false ->
  exists r db' a',
    PunchOutView_post clock request db = (Ok r, db') /\
    In a (rows db) /\
    rows db' = map (fun r' => if id r' =? id a then a' else r') (rows db) /\
    map id (rows db') = map id (rows db) /\
    punch_out_time a' = Some (now clock) /\
    punch_out_lat a' = Some user_lat /\
    punch_out_lon a' = Some user_lon /\
    punch_in_time a' = punch_in_time a /\
    punch_in_lat a' = punch_in_lat a /\
    punch_in_lon a' = punch_in_lon a /\
    user a' = user a /\
    id a' = id a /\
    PunchOutSuccess r b d a'.
Proof.
  intros Hc E Hn G. with_coordinates Hc. rewrite E, Hn, G.
  eexists _, _, (close_cycle a (now clock) user_lat user_lon).
  split; [reflexivity|].
  split; [eapply todays_active_In; eassumption|].
  split; [reflexivity|].
  split; [apply (save_ids (close_cycle a (now clock) user_lat user_lon))|].
  unfold PunchOutSuccess; simpl. repeat split.
Qed.

(** X21: a request without one of the two keys is rejected with the
    validation message by both views, and the table is unchanged. *)
Lemma missing_coordinates_rejected clock request db :
  dict_in "latitude" (data request) = false \/
  dict_in "longitude" (data request) = false ->
  PunchInView_post clock request db = (Ok coordinates_required, db) /\
  PunchOutView_post clock request db = (Ok coordinates_required, db) /\
  ValidationError coordinates_required.
Proof.
  intros H. unfold PunchInView_post, PunchOutView_post.
  assert (E : negb (dict_in "latitude" (data request))
              || negb (dict_in "longitude" (data request)) = true).
  { destruct H as [-> | ->]; [reflexivity|apply orb_true_r]. }
  rewrite E. repeat split.
Qed.

(** C8 fails on the code for coordinates that are present and not
    numbers: with both keys bound to null, [float] raises [TypeError] in
    both views, so no rejection is answered (the table is unchanged). *)
Theorem null_coordinates_raise clock db :
  PunchInView_post clock null_coordinates db = (Raise TypeError, db) /\
  PunchOutView_post clock null_coordinates db = (Raise TypeError, db).
Proof. split; reflexivity. Qed.

(** A latitude string that [float] does not read raises [ValueError]. *)
Lemma unreadable_latitude_raises clock u s v db :
  float_of_str s = None ->
  let request := {| req_user := u;
                    data := [("latitude", PyStr s); ("longitude", v)] |} in
  PunchInView_post clock request db = (Raise ValueError, db) /\
  PunchOutView_post clock request db = (Raise ValueError, db).
Proof.
  intros E request. unfold PunchInView_post, PunchOutView_post; simpl.
  rewrite E. split; reflexivity.
Qed.

End Punching.

(** ** The status projection *)

Lemma filter_andb {A} (f g : A -> bool) (l : list A) :
  filter (fun x => f x && g x) l = filter g (filter f l).
Proof.
  induction l as [|x l IH]; simpl; [reflexivity|].
  destruct (f x); simpl; [destruct (g x)|]; now rewrite IH.
Qed.

Lemma replace_row_absent (a : Attendance) (l : list Attendance) :
  ~ In (id a) (map id l) -> map (replace_row a) l = l.
Proof.
  induction l as [|r l IH]; simpl; [reflexivity|]. intros H.
  unfold replace_row at 1. destruct (Z.eqb_spec (id r) (id a)) as [E|E].
  - exfalso. apply H. now left.
  - f_equal. apply IH. intros Hin. apply H. now right.
Qed.

(** Saving a row that keeps its primary key and still matches a filter
    which only the old row matched leaves it the only match. *)
Lemma filter_replace_only (f : Attendance -> bool) (a0 a : Attendance) :
  forall l, NoDup (map id l) -> filter f l = [a0] ->
            f a = true -> id a = id a0 ->
            filter f (map (replace_row a) l) = [a].
Proof.
  induction l as [|r l IH]; simpl; intros Hnd Hf Ha Hid; [discriminate|].
  inversion Hnd as [|? ? Hnotin Hnd']; subst.
  destruct (f r) eqn:Fr.
  - injection Hf as Hr Hnil. subst r.
    assert (E : replace_row a a0 = a)
      by (unfold replace_row; now rewrite Hid, Z.eqb_refl).
    rewrite E, Ha, replace_row_absent by (rewrite Hid; exact Hnotin).
    now rewrite Hnil.
  - assert (Hin : In a0 l).
    { assert (In a0 (filter f l)) by (rewrite Hf; now left).
      now apply filter_In in H. }
    assert (E : replace_row a r = r).
    { unfold replace_row. destruct (Z.eqb_spec (id r) (id a)) as [E|E];
        [|reflexivity].
      exfalso. apply Hnotin. rewrite E, Hid. now apply in_map. }
    rewrite E, Fr. now apply IH.
Qed.

Lemma last_by_id_only (l : list Attendance) (a : Attendance) :
  (List.length l <= 1)%nat -> last_by_id l = Some a -> l = [a].
Proof.
  destruct l as [|x [|y l]]; simpl; intros Hlen E.
  - discriminate.
  - now injection E as ->.
  - lia.
Qed.

Section Status.

Context {imports : Imports}.

(** A punch-in answered with 201 created a row or restarted the latest
    row of the day. *)
Lemma punch_in_created_or_restarted clock request db r db1 :
  PunchInView_post clock request db = (Ok r, db1) ->
  status_code r = 201 ->
  exists user_lat user_lon,
    (todays_latest (req_user request) (today clock) db = None /\
     db1 = snd (objects_create (req_user request) (now clock)
                  user_lat user_lon db)) \/
    (exists a0 t,
        todays_latest (req_user request) (today clock) db = Some a0 /\
        punch_out_time a0 = Some t /\
        db1 = save (restart_cycle a0 (now clock) user_lat user_lon) db).
Proof.
  unfold PunchInView_post.
  destruct (negb _ || negb _); [intros E; injection E as <- _; discriminate|].
  destruct (py_float (dict_get "latitude" _)) as [user_lat|]; [|discriminate].
  destruct (py_float (dict_get "longitude" _)) as [user_lon|]; [|discriminate].
  destruct (find_nearest user_lat user_lon) as [nb d].
  destruct (py_gt d PUNCH_RADIUS).
  { destruct nb; [|discriminate]. intros E; injection E as <- _; discriminate. }
  intros E Hcode. exists user_lat, user_lon.
  destruct (todays_latest _ _ db) as [a0|] eqn:L.
  - destruct (punch_out_time a0) as [t|] eqn:T.
    + right. exists a0, t. repeat split; [exact T|].
      destruct nb; simpl in E; [|discriminate]. now injection E as _ <-.
    + injection E as <- _. discriminate.
  - left. split; [reflexivity|].
    destruct nb; simpl in E; [|discriminate]. now injection E as _ <-.
Qed.

(** A punch-out answered with 200 closed the open row of the day. *)
Lemma punch_out_closed clock request db r db2 :
  PunchOutView_post clock request db = (Ok r, db2) ->
  status_code r = 200 ->
  exists a user_lat user_lon,
    todays_active (req_user request) (today clock) db = Some a /\
    db2 = save (close_cycle a (now clock) user_lat user_lon) db.
Proof.
  unfold PunchOutView_post.
  destruct (negb _ || negb _); [intros E; injection E as <- _; discriminate|].
  destruct (py_float (dict_get "latitude" _)) as [user_lat|]; [|discriminate].
  destruct (py_float (dict_get "longitude" _)) as [user_lon|]; [|discriminate].
  destruct (todays_active _ _ db) as [a|];
    [|intros E; injection E as <- _; discriminate].
  destruct (find_nearest user_lat user_lon) as [nb d].
  destruct (py_gt d PUNCH_RADIUS).
  { destruct nb; [|discriminate]. intros E; injection E as <- _; discriminate. }
  destruct nb; [|discriminate]. intros E _. injection E as _ <-.
  exists a, user_lat, user_lon. auto.
Qed.

Lemma get_of_only_row clock request db a :
  filter (on_day (req_user request) (today clock)) (rows db) = [a] ->
  TodayAttendanceView_get clock request db = (Ok (attendance_today a), db).
Proof.
  intros E. unfold TodayAttendanceView_get, todays_latest. now rewrite E.
Qed.

(** After a punch-in answered with 201 on a table with at most one row of
    the user and day, that day has exactly one row of the user; it is open
    and holds the time of the punch-in. *)
Lemma punch_in_leaves_one_open_row clock request db r db1 :
  wf_store db ->
  (List.length (filter (on_day (req_user request) (today clock)) (rows db)) <= 1)%nat ->
  dt_date (now clock) = today clock ->
  PunchInView_post clock request db = (Ok r, db1) ->
  status_code r = 201 ->
  exists a1,
    filter (on_day (req_user request) (today clock)) (rows db1) = [a1] /\
    punch_in_time a1 = Some (now clock) /\
    punch_out_time a1 = None /\
    NoDup (map id (rows db1)).
Proof.
  intros [Hnd Hlt] Hone Hday E Hcode.
  destruct (punch_in_created_or_restarted _ _ _ _ _ E Hcode)
    as (la & lo & [[L ->]|(a0 & t & L & T & ->)]).
  - eexists. simpl. rewrite filter_app. simpl.
    unfold on_day at 2. simpl. rewrite Z.eqb_refl, Hday, Z.eqb_refl. simpl.
    pose proof (last_by_id_spec
                  (filter (on_day (req_user request) (today clock)) (rows db))) as S.
    unfold todays_latest in L. rewrite L in S. rewrite S. simpl.
    repeat split. rewrite map_app. simpl. apply NoDup_app.
    + assumption.
    + constructor; [intros []|constructor].
    + intros i Hi [<-|[]]. apply in_map_iff in Hi as (a & Ha & Hin).
      rewrite Forall_forall in Hlt. specialize (Hlt a Hin). lia.
  - unfold todays_latest in L. apply last_by_id_only in L; [|assumption].
    assert (Hon : on_day (req_user request) (today clock) a0 = true).
    { assert (In a0 (filter (on_day (req_user request) (today clock)) (rows db)))
        by (rewrite L; now left).
      now apply filter_In in H. }
    exists (restart_cycle a0 (now clock) la lo). simpl. repeat split.
    + apply filter_replace_only with (a0 := a0); auto.
      unfold on_day in *. simpl. apply andb_true_iff in Hon as [-> _].
      rewrite Hday, Z.eqb_refl. reflexivity.
    + rewrite map_map.
      rewrite (map_ext _ id (replace_row_id (restart_cycle a0 (now clock) la lo))).
      assumption.
Qed.

(** C7: the status projection answers with both flags false and null
    times when the user has no row for the day, and never changes the
    table.  On a well-formed table with at most one row of the user and
    day, right after a punch-in answered with 201 within that day it
    answers is_punched_in = true and has_punched_out = false, and right
    after a following punch-out answered with 200 it answers
    is_punched_in = false and has_punched_out = true. *)
Theorem status_round_trip c_in q_in db r1 db1 c_out q_out r2 db2 clock request :
  wf_store db ->
  (List.length (filter (on_day (req_user q_in) (today c_in)) (rows db)) <= 1)%nat ->
  dt_date (now c_in) = today c_in ->
  PunchInView_post c_in q_in db = (Ok r1, db1) ->
  status_code r1 = 201 ->
  req_user q_out = req_user q_in ->
  today c_out = today c_in ->
  PunchOutView_post c_out q_out db1 = (Ok r2, db2) ->
  status_code r2 = 200 ->
  req_user request = req_user q_in ->
  today clock = today c_in ->
  (forall db0,
      (forall a, In a (rows db0) ->
                 on_day (req_user request) (today clock) a = false) ->
      let r := fst (TodayAttendanceView_get clock request db0) in
      status_field "is_punched_in" r = Some (PyBool false) /\
      status_field "has_punched_out" r = Some (PyBool false) /\
      status_field "punch_in_time" r = Some PyNone /\
      status_field "punch_out_time" r = Some PyNone) /\
  (let r := fst (TodayAttendanceView_get clock request db1) in
   status_field "is_punched_in" r = Some (PyBool true) /\
   status_field "has_punched_out" r = Some (PyBool false) /\
   status_field "punch_in_time" r = Some (PyDatetime (now c_in)) /\
   status_field "punch_out_time" r = Some PyNone) /\
  (let r := fst (TodayAttendanceView_get clock request db2) in
   status_field "is_punched_in" r = Some (PyBool false) /\
   status_field "has_punched_out" r = Some (PyBool true) /\
   status_field "punch_in_time" r = Some (PyDatetime (now c_in)) /\
   status_field "punch_out_time" r = Some (PyDatetime (now c_out))) /\
  (forall db0, snd (TodayAttendanceView_get clock request db0) = db0).
Proof.
  intros Hwf Hone Hday E1 Hc1 Hu Hd E2 Hc2 Hur Hdr.
  destruct (punch_in_leaves_one_open_row _ _ _ _ _ Hwf Hone Hday E1 Hc1)
    as (a1 & Hrows1 & Hin1 & Hout1 & Hnd1).
  split; [|split; [|split]].
  - intros db0 Hnone r. subst r. unfold TodayAttendanceView_get, todays_latest.
    replace (filter (on_day (req_user request) (today clock)) (rows db0))
      with (@nil Attendance) by (symmetry; now apply filter_nil_iff).
    simpl. auto.
  - rewrite (get_of_only_row clock request db1 a1) by (now rewrite Hur, Hdr).
    simpl. unfold dict_lookup2; simpl. rewrite Hin1, Hout1. simpl. auto.
  - destruct (punch_out_closed _ _ _ _ _ E2 Hc2) as (a & la & lo & Hact & ->).
    rewrite Hu, Hd in Hact. unfold todays_active in Hact.
    rewrite (filter_ext (active_on_day (req_user q_in) (today c_in))
               (fun x => on_day (req_user q_in) (today c_in) x
                         && punch_out_isnull x)) in Hact by reflexivity.
    rewrite filter_andb, Hrows1 in Hact. simpl in Hact.
    unfold punch_out_isnull in Hact. rewrite Hout1 in Hact. simpl in Hact.
    injection Hact as <-.
    assert (Hon : on_day (req_user q_in) (today c_in) a1 = true).
    { assert (In a1 (filter (on_day (req_user q_in) (today c_in)) (rows db1)))
        by (rewrite Hrows1; now left).
      now apply filter_In in H. }
    rewrite (get_of_only_row clock request _ (close_cycle a1 (now c_out) la lo)).
    + simpl. unfold dict_lookup2; simpl. rewrite Hin1. simpl. auto.
    + rewrite Hur, Hdr. simpl.
      apply filter_replace_only with (a0 := a1); auto.
  - intros db0. unfold TodayAttendanceView_get.
    destruct (todays_latest _ _ db0); reflexivity.
Qed.

End Status.

(** ** The views on the example configuration *)

Lemma out_of_range_iff_witness :
  (exists r, @PunchInView_post demo morning far_away punched_in_table
               = (Ok r, punched_in_table) /\
             @OutOfRangeError demo r annex 894%float) /\
  (exists r, @PunchOutView_post demo evening far_away punched_in_table
               = (Ok r, punched_in_table) /\
             @OutOfRangeError demo r annex 894%float).
Proof.
  assert (Hc : @coordinates demo far_away 29.5%float 77.25%float)
    by (repeat split).
  assert (Hn : @find_nearest demo 29.5%float 77.25%float = (Some annex, 894%float))
    by (vm_compute; reflexivity).
  split.
  - apply (proj1 (@out_of_range_iff demo morning far_away punched_in_table
                    _ _ _ _ Hc Hn)).
    vm_compute; reflexivity.
  - apply (proj1 (proj2 (@out_of_range_iff demo evening far_away punched_in_table
                           _ _ _ _ Hc Hn)) (open_row 1)).
    + reflexivity.
    + vm_compute; reflexivity.
Defined.

(** C1 as it is worded fails for punch-out: far from every branch and with
    no open row, the answer is the not-punched-in rejection, not the
    out-of-range one. *)
Lemma out_of_range_counterexample :
  @coordinates demo far_away 29.5%float 77.25%float /\
  @find_nearest demo 29.5%float 77.25%float = (Some annex, 894%float) /\
  py_gt 894%float (@PUNCH_RADIUS demo) = true /\
  @PunchOutView_post demo morning far_away empty_table
    = (Ok not_punched_in, empty_table) /\
  ~ @OutOfRangeError demo not_punched_in annex 894%float.
Proof.
  split; [repeat split|]. split; [vm_compute; reflexivity|].
  split; [vm_compute; reflexivity|]. split; [vm_compute; reflexivity|].
  intros (_ & Hmsg & _). discriminate.
Qed.

(** At exactly the radius from the head office the punch-in is accepted. *)
Example punch_in_on_the_boundary :
  @find_nearest demo 28.40234375%float 77.25%float = (Some head_office, 100%float) /\
  py_gt 100%float (@PUNCH_RADIUS demo) = false /\
  exists r db',
    @PunchInView_post demo morning on_the_boundary empty_table = (Ok r, db') /\
    status_code r = 201.
Proof.
  split; [vm_compute; reflexivity|]. split; [vm_compute; reflexivity|].
  eexists _, _. split; [cbv; reflexivity|reflexivity].
Qed.

Lemma punch_in_success_cases_witness :
  (exists r db',
      @PunchInView_post demo morning near_head_office empty_table = (Ok r, db') /\
      rows db' =
        [ {| id := 1; user := 7;
             punch_in_time := Some (now morning);
             punch_in_lat := Some 28.548828125%float;
             punch_in_lon := Some 77.25%float;
             punch_out_time := None;
             punch_out_lat := None; punch_out_lon := None |} ] /\
      dict_lookup "message" (resp_data r)
        = Some (PyStr "Punch in successful at Head Office")) /\
  (exists r db',
      @PunchInView_post demo evening near_head_office punched_out_table = (Ok r, db') /\
      rows db' =
        [ {| id := 1; user := 7;
             punch_in_time := Some (now evening);
             punch_in_lat := Some 28.548828125%float;
             punch_in_lon := Some 77.25%float;
             punch_out_time := None;
             punch_out_lat := None; punch_out_lon := None |} ] /\
      dict_lookup "message" (resp_data r)
        = Some (PyStr "Punch in updated successfully at Head Office")).
Proof.
  assert (Hc : @coordinates demo near_head_office 28.548828125%float 77.25%float)
    by (repeat split).
  assert (Hn : @find_nearest demo 28.548828125%float 77.25%float
               = (Some head_office, 50%float))
    by (vm_compute; reflexivity).
  assert (G : py_gt 50%float (@PUNCH_RADIUS demo) = false)
    by (vm_compute; reflexivity).
  split.
  - destruct (proj1 (@punch_in_success_cases demo morning near_head_office
                       empty_table _ _ _ _ Hc Hn G) eq_refl)
      as (r & db' & E & Hrows & Hok).
    exists r, db'. split; [exact E|]. split; [exact Hrows|].
    vm_compute in E. injection E as <- _. reflexivity.
  - destruct (proj2 (@punch_in_success_cases demo evening near_head_office
                       punched_out_table _ _ _ _ Hc Hn G)
                (closed_row 1) _ eq_refl eq_refl)
      as (r & db' & E & _ & Hrows & _).
    exists r, db'. split; [exact E|]. split; [exact Hrows|].
    vm_compute in E. injection E as <- _. reflexivity.
Defined.

Lemma punch_in_already_punched_in_witness :
  exists r,
    @PunchInView_post demo evening near_head_office punched_in_table
      = (Ok r, punched_in_table) /\
    AlreadyPunchedInError r /\
    dict_lookup "data" (resp_data r) = Some (summary (open_row 1)).
Proof.
  apply (@punch_in_already_punched_in demo evening near_head_office
           punched_in_table 28.548828125%float 77.25%float
           (Some head_office) 50%float (open_row 1)).
  - repeat split.
  - vm_compute; reflexivity.
  - vm_compute; reflexivity.
  - reflexivity.
  - reflexivity.
Defined.

Lemma punch_out_not_punched_in_witness :
  @PunchOutView_post demo evening far_away punched_out_table
    = (Ok not_punched_in, punched_out_table) /\
  NotPunchedInError not_punched_in.
Proof.
  apply (@punch_out_not_punched_in demo evening far_away punched_out_table
           29.5%float 77.25%float).
  - repeat split.
  - intros a [<-|[]] _. discriminate.
Defined.

Lemma punch_out_success_frame_witness :
  exists r db' a',
    @PunchOutView_post demo evening near_head_office punched_in_table = (Ok r, db') /\
    rows db' = [a'] /\
    punch_out_time a' = Some (now evening) /\
    punch_in_time a' = punch_in_time (open_row 1) /\
    @PunchOutSuccess demo r head_office 50%float a'.
Proof.
  destruct (@punch_out_success_frame demo evening near_head_office punched_in_table
              28.548828125%float 77.25%float head_office 50%float (open_row 1))
    as (r & db' & a' & E & _ & Hrows & _ & Ht & _ & _ & Hin & _ & _ & _ & _ & Hok).
  - repeat split.
  - reflexivity.
  - vm_compute; reflexivity.
  - vm_compute; reflexivity.
  - exists r, db', a'. simpl in Hrows. auto.
Defined.

Lemma status_round_trip_witness :
  let db1 := snd (@PunchInView_post demo morning near_head_office empty_table) in
  let db2 := snd (@PunchOutView_post demo evening near_annex db1) in
  (status_field "is_punched_in"
     (fst (@TodayAttendanceView_get demo evening near_head_office db1))
     = Some (PyBool true) /\
   status_field "has_punched_out"
     (fst (@TodayAttendanceView_get demo evening near_head_office db1))
     = Some (PyBool false)) /\
  (status_field "is_punched_in"
     (fst (@TodayAttendanceView_get demo evening near_head_office db2))
     = Some (PyBool false) /\
   status_field "has_punched_out"
     (fst (@TodayAttendanceView_get demo evening near_head_office db2))
     = Some (PyBool true)).
Proof.
  intros db1 db2.
  pose (a1 := fst (objects_create 7 (now morning)
                     28.548828125%float 77.25%float empty_table)).
  pose (r1 := @punch_in_success demo "Punch in successful" head_office 50%float a1).
  pose (r2 := @punch_out_success demo annex 50%float
                (close_cycle a1 (now evening) 28.578125%float 77.25%float)).
  destruct (@status_round_trip demo morning near_head_office empty_table
              r1 db1 evening near_annex r2 db2 evening near_head_office)
    as (_ & (H1 & H2 & _) & (H3 & H4 & _) & _).
  - split; constructor.
  - simpl. lia.
  - reflexivity.
  - vm_compute; reflexivity.
  - reflexivity.
  - reflexivity.
  - reflexivity.
  - vm_compute; reflexivity.
  - reflexivity.
  - reflexivity.
  - reflexivity.
  - auto.
Defined.

(** With two rows of the user and day, the older one open, a punch-in
    restarts the newer row and the following punch-out closes the older
    one, so the status still answers is_punched_in = true. *)
Example round_trip_with_two_rows :
  let db1 := snd (@PunchInView_post demo morning near_head_office two_rows_table) in
  let db2 := snd (@PunchOutView_post demo evening near_head_office db1) in
  (exists r1, fst (@PunchInView_post demo morning near_head_office two_rows_table)
              = Ok r1 /\ status_code r1 = 201) /\
  (exists r2, fst (@PunchOutView_post demo evening near_head_office db1)
              = Ok r2 /\ status_code r2 = 200) /\
  status_field "is_punched_in"
    (fst (@TodayAttendanceView_get demo evening near_head_office db2))
    = Some (PyBool true) /\
  status_field "has_punched_out"
    (fst (@TodayAttendanceView_get demo evening near_head_office db2))
    = Some (PyBool false).
Proof.
  intros db1 db2. split; [|split].
  - eexists. split; [cbv; reflexivity|reflexivity].
  - eexists. split; [cbv; reflexivity|reflexivity].
  - split; vm_compute; reflexivity.
Qed.

(** When the distance function answers NaN, the loop keeps no branch and
    the out-of-range answer cannot name one. *)
Example nan_distance_keeps_no_branch :
  let I := {| BRANCHES := [head_office; annex];
              PUNCH_RADIUS := 100%float;
              calculate_distance := fun _ _ _ _ => nan;
              AttendanceSerializer := summary;
              py_round := fun x _ => x;
              float_of_str := fun _ => None |} in
  find_nearest 28.5%float 77.25%float = (None, infinity) /\
  PunchInView_post morning near_head_office empty_table
    = (Raise TypeError, empty_table).
Proof. split; vm_compute; reflexivity. Qed.

(** ** Well-formed tables stay well formed *)

Lemma save_wf (a : Attendance) (db : Store) :
  wf_store db -> wf_store (save a db).
Proof.
  intros [Hnd Hlt]. split.
  - now rewrite save_ids.
  - simpl. apply Forall_map. rewrite Forall_forall in *.
    intros r Hr. rewrite replace_row_id. now apply Hlt.
Qed.

Lemma objects_create_wf u t la lo (db : Store) :
  wf_store db -> wf_store (snd (objects_create u t la lo db)).
Proof.
  intros [Hnd Hlt]. rewrite Forall_forall in Hlt. split; simpl.
  - rewrite map_app. simpl. apply NoDup_app.
    + assumption.
    + constructor; [intros []|constructor].
    + intros i Hi [<-|[]]. apply in_map_iff in Hi as (a & Ha & Hin).
      specialize (Hlt a Hin). lia.
  - apply Forall_app. split.
    + apply Forall_forall. intros a Ha. specialize (Hlt a Ha). lia.
    + constructor; [simpl; lia|constructor].
Qed.

(** X1: every view keeps the table well formed: primary keys stay unique
    and below the next value of the sequence. *)
Lemma views_preserve_wf {imports : Imports} clock request db :
  wf_store db ->
  wf_store (snd (PunchInView_post clock request db)) /\
  wf_store (snd (PunchOutView_post clock request db)) /\
  wf_store (snd (TodayAttendanceView_get clock request db)).
Proof.
  intros Hwf. split; [|split].
  - unfold PunchInView_post.
    destruct (negb _ || negb _); [assumption|].
    destruct (py_float (dict_get "latitude" _)) as [la|]; [|assumption].
    destruct (py_float (dict_get "longitude" _)) as [lo|]; [|assumption].
    destruct (find_nearest la lo) as [nb d].
    destruct (py_gt d PUNCH_RADIUS); [destruct nb; assumption|].
    destruct (todays_latest _ _ db) as [a|].
    + destruct (punch_out_time a); [|assumption].
      destruct nb; simpl; now apply save_wf.
    + destruct nb; simpl;
        now apply (objects_create_wf (req_user request) (now clock) la lo db).
  - unfold PunchOutView_post.
    destruct (negb _ || negb _); [assumption|].
    destruct (py_float (dict_get "latitude" _)) as [la|]; [|assumption].
    destruct (py_float (dict_get "longitude" _)) as [lo|]; [|assumption].
    destruct (todays_active _ _ db) as [a|]; [|assumption].
    destruct (find_nearest la lo) as [nb d].
    destruct (py_gt d PUNCH_RADIUS); [destruct nb; assumption|].
    destruct nb; simpl; now apply save_wf.
  - unfold TodayAttendanceView_get. destruct (todays_latest _ _ db); assumption.
Qed.

(** * Further properties of the views *)

(** ** What the punch views answer and write *)

Section Answers.

Context {imports : Imports}.

(** X2: a punch view that answers does so with its success code or with
    400, and a 400 answer comes with the table as it was; so does a
    [ValueError] of the conversion. *)
Theorem rejections_write_nothing clock request db :
  match PunchInView_post clock request db with
  | (Ok r, db') => status_code r = 201 \/ (status_code r = 400 /\ db' = db)
  | (Raise ValueError, db') => db' = db
  | (Raise TypeError, _) => True
  end /\
  match PunchOutView_post clock request db with
  | (Ok r, db') => status_code r = 200 \/ (status_code r = 400 /\ db' = db)
  | (Raise ValueError, db') => db' = db
  | (Raise TypeError, _) => True
  end.
Proof.
  split.
  - unfold PunchInView_post.
    destruct (negb _ || negb _); [right; split; reflexivity|].
    destruct (py_float (dict_get "latitude" _)) as [la|[]]; auto.
    destruct (py_float (dict_get "longitude" _)) as [lo|[]]; auto.
    destruct (find_nearest la lo) as [nb d].
    destruct (py_gt d PUNCH_RADIUS).
    { destruct nb; [right; split; reflexivity|exact I]. }
    destruct (todays_latest _ _ db) as [a|].
    + destruct (punch_out_time a); [|right; split; reflexivity].
      destruct nb; simpl; [left; reflexivity|exact I].
    + destruct nb; simpl; [left; reflexivity|exact I].
  - unfold PunchOutView_post.
    destruct (negb _ || negb _); [right; split; reflexivity|].
    destruct (py_float (dict_get "latitude" _)) as [la|[]]; auto.
    destruct (py_float (dict_get "longitude" _)) as [lo|[]]; auto.
    destruct (todays_active _ _ db) as [a|]; [|right; split; reflexivity].
    destruct (find_nearest la lo) as [nb d].
    destruct (py_gt d PUNCH_RADIUS).
    { destruct nb; [right; split; reflexivity|exact I]. }
    destruct nb; simpl; [left; reflexivity|exact I].
Qed.

(** The loop ends on a branch when there is one and distances are numbers
    below infinity. *)
Lemma find_nearest_some user_lat user_lon :
  BRANCHES <> [] ->
  (forall b, In b BRANCHES -> py_lt (dist_to user_lat user_lon b) infinity = true) ->
  exists b, In b BRANCHES /\
            find_nearest user_lat user_lon = (Some b, dist_to user_lat user_lon b).
Proof.
  intros Hne Hfin.
  assert (H : nearest_so_far user_lat user_lon ([] ++ BRANCHES)
                (find_nearest user_lat user_lon)).
  { apply nearest_loop_so_far; [left; auto|exact Hfin]. }
  simpl in H. destruct H as [[Hnil _]|(before & b & after & E & Hacc & _)].
  - contradiction.
  - exists b. split; [|assumption]. rewrite E. apply in_elt.
Qed.

(** X3: with both coordinates numeric, at least one branch and distances
    that are numbers below infinity, both punch views answer with a
    response: neither raises. *)
Theorem punch_views_answer clock request db user_lat user_lon :
  coordinates request user_lat user_lon ->
  BRANCHES <> [] ->
  (forall b, In b BRANCHES -> py_lt (dist_to user_lat user_lon b) infinity = true) ->
  (exists r db', PunchInView_post clock request db = (Ok r, db')) /\
  (exists r db', PunchOutView_post clock request db = (Ok r, db')).
Proof.
  intros (H1 & H2 & H3 & H4) Hne Hfin.
  destruct (find_nearest_some user_lat user_lon Hne Hfin) as (b & _ & Hn).
  unfold PunchInView_post, PunchOutView_post.
  rewrite H1, H2, H3, H4, Hn. cbn [negb orb]. split.
  - destruct (py_gt _ PUNCH_RADIUS); [eauto|].
    destruct (todays_latest _ _ db) as [a|]; [|simpl; eauto].
    destruct (punch_out_time a); simpl; eauto.
  - destruct (todays_active _ _ db) as [a|]; [|eauto].
    destruct (py_gt _ PUNCH_RADIUS); eauto.
Qed.

(** X4: no view removes a row or changes a primary key.  Punch-in leaves
    the primary keys as they are or adds the next value of the sequence
    at the end; punch-out and the status view leave them as they are. *)
Theorem views_never_delete_rows clock request db :
  (map id (rows (snd (PunchInView_post clock request db))) = map id (rows db) \/
   map id (rows (snd (PunchInView_post clock request db)))
     = map id (rows db) ++ [next_id db]) /\
  map id (rows (snd (PunchOutView_post clock request db))) = map id (rows db) /\
  rows (snd (TodayAttendanceView_get clock request db)) = rows db.
Proof.
  split; [|split].
  - unfold PunchInView_post.
    destruct (negb _ || negb _); [now left|].
    destruct (py_float (dict_get "latitude" _)) as [la|]; [|now left].
    destruct (py_float (dict_get "longitude" _)) as [lo|]; [|now left].
    destruct (find_nearest la lo) as [nb d].
    destruct (py_gt d PUNCH_RADIUS); [destruct nb; now left|].
    destruct (todays_latest _ _ db) as [a|].
    + destruct (punch_out_time a); [|now left].
      left. destruct nb; simpl; rewrite map_map; apply map_ext, replace_row_id.
    + right. destruct nb; simpl; now rewrite map_app.
  - unfold PunchOutView_post.
    destruct (negb _ || negb _); [reflexivity|].
    destruct (py_float (dict_get "latitude" _)) as [la|]; [|reflexivity].
    destruct (py_float (dict_get "longitude" _)) as [lo|]; [|reflexivity].
    destruct (todays_active _ _ db) as [a|]; [|reflexivity].
    destruct (find_nearest la lo) as [nb d].
    destruct (py_gt d PUNCH_RADIUS); [destruct nb; reflexivity|].
    destruct nb; simpl; rewrite map_map; apply map_ext, replace_row_id.
  - unfold TodayAttendanceView_get. destruct (todays_latest _ _ db); reflexivity.
Qed.

End Answers.

(** ** Invariants the views keep *)

Lemma same_id_same_row (l : list Attendance) (r a : Attendance) :
  NoDup (map id l) -> In r l -> In a l -> id r = id a -> r = a.
Proof.
  induction l as [|x l IH]; simpl; intros Hnd Hr Ha E; [contradiction|].
  inversion Hnd as [|? ? Hnotin Hnd']; subst.
  destruct Hr as [<-|Hr], Ha as [<-|Ha]; auto.
  - exfalso. apply Hnotin. rewrite E. now apply in_map.
  - exfalso. apply Hnotin. rewrite <- E. now apply in_map.
Qed.

Lemma filter_map_fixed {A} (g : A -> bool) (h : A -> A) (l : list A) :
  (forall r, In r l -> g (h r) = g r /\ (g r = true -> h r = r)) ->
  filter g (map h l) = filter g l.
Proof.
  induction l as [|x l IH]; simpl; intros H; [reflexivity|].
  destruct (H x (or_introl eq_refl)) as [E Hfix]. rewrite E.
  rewrite IH by (intros r Hr; apply H; now right).
  destruct (g x); [now rewrite Hfix|reflexivity].
Qed.

Lemma filter_map_length {A} (f : A -> bool) (h : A -> A) (l : list A) :
  (forall r, In r l -> f (h r) = f r) ->
  List.length (filter f (map h l)) = List.length (filter f l).
Proof.
  induction l as [|x l IH]; simpl; intros H; [reflexivity|].
  rewrite (H x (or_introl eq_refl)).
  destruct (f x); simpl; rewrite IH; auto; intros r Hr; apply H; now right.
Qed.

(** Saving a changed copy of a row of the table that keeps its primary
    key, its user and the day of its punch-in changes no answer of
    [on_day]. *)
Lemma replace_row_on_day (db : Store) (a a' : Attendance) u d :
  NoDup (map id (rows db)) -> In a (rows db) ->
  id a' = id a -> on_day u d a' = on_day u d a ->
  forall r, In r (rows db) -> on_day u d (replace_row a' r) = on_day u d r.
Proof.
  intros Hnd Ha Hid Hon r Hr. unfold replace_row.
  destruct (Z.eqb_spec (id r) (id a')) as [E|E]; [|reflexivity].
  rewrite Hid in E. now rewrite (same_id_same_row _ _ _ Hnd Hr Ha E).
Qed.

Lemma restart_cycle_on_day (a : Attendance) t la lo u d u' d' :
  on_day u d a = true -> dt_date t = d ->
  on_day u' d' (restart_cycle a t la lo) = on_day u' d' a.
Proof.
  unfold on_day; simpl. intros H E. apply andb_true_iff in H as [_ H].
  destruct (punch_in_time a) as [t0|]; [|discriminate].
  apply Z.eqb_eq in H. now rewrite E, H.
Qed.

Section Invariants.

Context {imports : Imports}.

(** X5: on a well-formed table no view changes a row of another user:
    the rows of the other users are the same rows, in the same order,
    after every request. *)
Theorem views_leave_other_users_rows clock request db :
  wf_store db ->
  rows_of_others (req_user request) (snd (PunchInView_post clock request db))
    = rows_of_others (req_user request) db /\
  rows_of_others (req_user request) (snd (PunchOutView_post clock request db))
    = rows_of_others (req_user request) db /\
  rows_of_others (req_user request) (snd (TodayAttendanceView_get clock request db))
    = rows_of_others (req_user request) db.
Proof.
  intros [Hnd _].
  assert (Hsave : forall a a', In a (rows db) -> user a = req_user request ->
                    id a' = id a -> user a' = user a ->
                    rows_of_others (req_user request) (save a' db)
                      = rows_of_others (req_user request) db).
  { intros a a' Ha Hu Hid Hu'. unfold rows_of_others, save; simpl.
    apply filter_map_fixed. intros r Hr. unfold replace_row.
    destruct (Z.eqb_spec (id r) (id a')) as [E|E]; [|split; reflexivity].
    rewrite Hid in E. rewrite (same_id_same_row _ _ _ Hnd Hr Ha E).
    rewrite Hu', Hu, Z.eqb_refl. split; [reflexivity|discriminate]. }
  split; [|split].
  - unfold PunchInView_post.
    destruct (negb _ || negb _); [reflexivity|].
    destruct (py_float (dict_get "latitude" _)) as [la|]; [|reflexivity].
    destruct (py_float (dict_get "longitude" _)) as [lo|]; [|reflexivity].
    destruct (find_nearest la lo) as [nb d].
    destruct (py_gt d PUNCH_RADIUS); [destruct nb; reflexivity|].
    destruct (todays_latest _ _ db) as [a|] eqn:L.
    + destruct (punch_out_time a); [|reflexivity].
      apply todays_latest_In in L as [Ha Hon].
      unfold on_day in Hon. apply andb_true_iff in Hon as [Hu _].
      apply Z.eqb_eq in Hu.
      destruct nb; simpl; now apply (Hsave a).
    + destruct nb; simpl; unfold rows_of_others; simpl;
        rewrite filter_app; simpl; rewrite Z.eqb_refl; simpl;
        apply app_nil_r.
  - unfold PunchOutView_post.
    destruct (negb _ || negb _); [reflexivity|].
    destruct (py_float (dict_get "latitude" _)) as [la|]; [|reflexivity].
    destruct (py_float (dict_get "longitude" _)) as [lo|]; [|reflexivity].
    destruct (todays_active _ _ db) as [a|] eqn:L; [|reflexivity].
    destruct (find_nearest la lo) as [nb d].
    destruct (py_gt d PUNCH_RADIUS); [destruct nb; reflexivity|].
    apply todays_active_In in L as (Ha & Hon & _).
    unfold on_day in Hon. apply andb_true_iff in Hon as [Hu _].
    apply Z.eqb_eq in Hu.
    destruct nb; simpl; now apply (Hsave a).
  - unfold TodayAttendanceView_get. destruct (todays_latest _ _ db); reflexivity.
Qed.

(** X6: on a well-formed table where every user has at most one row for
    each day, every view leaves at most one row for each user and day,
    provided the time of the request lies in the day of the request. *)
Theorem one_row_per_day_kept clock request db :
  wf_store db ->
  one_row_per_day db ->
  dt_date (now clock) = today clock ->
  one_row_per_day (snd (PunchInView_post clock request db)) /\
  one_row_per_day (snd (PunchOutView_post clock request db)) /\
  one_row_per_day (snd (TodayAttendanceView_get clock request db)).
Proof.
  intros [Hnd _] Hone Hday.
  assert (Hsave : forall a a', In a (rows db) -> id a' = id a ->
                    (forall u d, on_day u d a' = on_day u d a) ->
                    one_row_per_day (save a' db)).
  { intros a a' Ha Hid Hon u d. unfold save; simpl.
    rewrite filter_map_length; [apply Hone|].
    apply (replace_row_on_day db a a'); auto. }
  split; [|split].
  - unfold PunchInView_post.
    destruct (negb _ || negb _); [assumption|].
    destruct (py_float (dict_get "latitude" _)) as [la|]; [|assumption].
    destruct (py_float (dict_get "longitude" _)) as [lo|]; [|assumption].
    destruct (find_nearest la lo) as [nb d].
    destruct (py_gt d PUNCH_RADIUS); [destruct nb; assumption|].
    destruct (todays_latest _ _ db) as [a|] eqn:L.
    + destruct (punch_out_time a); [|assumption].
      apply todays_latest_In in L as [Ha Hon].
      destruct nb; simpl; apply (Hsave a); auto; intros u' d';
        now apply restart_cycle_on_day with (u := req_user request)
                                            (d := today clock).
    + assert (Hnone : filter (on_day (req_user request) (today clock)) (rows db) = []).
      { pose proof (last_by_id_spec
                      (filter (on_day (req_user request) (today clock)) (rows db))) as S.
        unfold todays_latest in L. now rewrite L in S. }
      assert (Hnew : one_row_per_day
                (snd (objects_create (req_user request) (now clock) la lo db))).
      { intros u' d'. simpl. rewrite filter_app, length_app. simpl.
        unfold on_day at 2. simpl.
        destruct (Z.eqb_spec (req_user request) u') as [<-|]; simpl;
          [|specialize (Hone u' d'); lia].
        destruct (Z.eqb_spec (dt_date (now clock)) d') as [<-|]; simpl;
          [|specialize (Hone (req_user request) d'); lia].
        rewrite Hday, Hnone. simpl. lia. }
      destruct nb; simpl; exact Hnew.
  - unfold PunchOutView_post.
    destruct (negb _ || negb _); [assumption|].
    destruct (py_float (dict_get "latitude" _)) as [la|]; [|assumption].
    destruct (py_float (dict_get "longitude" _)) as [lo|]; [|assumption].
    destruct (todays_active _ _ db) as [a|] eqn:L; [|assumption].
    destruct (find_nearest la lo) as [nb d].
    destruct (py_gt d PUNCH_RADIUS); [destruct nb; assumption|].
    apply todays_active_In in L as (Ha & _ & _).
    destruct nb; simpl; apply (Hsave a); auto.
  - unfold TodayAttendanceView_get. destruct (todays_latest _ _ db); assumption.
Qed.

End Invariants.

(** ** Punching twice *)

Lemma NoDup_ids_filter (f : Attendance -> bool) (l : list Attendance) :
  NoDup (map id l) -> NoDup (map id (filter f l)).
Proof.
  induction l as [|x l IH]; simpl; intros Hnd; [constructor|].
  inversion Hnd as [|? ? Hnotin Hnd']; subst.
  destruct (f x); simpl; [|now apply IH].
  constructor; [|now apply IH].
  intros Hin. apply Hnotin. apply in_map_iff in Hin as (y & E & Hy).
  apply filter_In in Hy as [Hy _]. rewrite <- E. now apply in_map.
Qed.

Lemma last_by_id_greatest (l : list Attendance) (x : Attendance) :
  NoDup (map id l) -> In x l -> (forall b, In b l -> id b <= id x) ->
  last_by_id l = Some x.
Proof.
  intros Hnd Hx Hmax. pose proof (last_by_id_spec l) as S.
  destruct (last_by_id l) as [y|]; [|subst l; contradiction].
  destruct S as [Hy Hymax]. f_equal.
  apply (same_id_same_row l y x Hnd Hy Hx).
  specialize (Hmax y Hy). specialize (Hymax x Hx). lia.
Qed.

Section Twice.

Context {imports : Imports}.

(** After a punch-in answered with 201 on a well-formed table, within the
    day of the request, the latest row of the user and day is open and
    holds the time of the punch-in, however many rows the day has. *)
Lemma punch_in_becomes_latest clock request db r db1 :
  wf_store db ->
  dt_date (now clock) = today clock ->
  PunchInView_post clock request db = (Ok r, db1) ->
  status_code r = 201 ->
  exists a1,
    todays_latest (req_user request) (today clock) db1 = Some a1 /\
    punch_in_time a1 = Some (now clock) /\
    punch_out_time a1 = None.
Proof.
  intros Hwf Hday E Hcode.
  destruct (punch_in_created_or_restarted _ _ _ _ _ E Hcode)
    as (la & lo & [[L ->]|(a0 & t & L & T & ->)]).
  - pose proof (objects_create_wf (req_user request) (now clock) la lo db Hwf)
      as [Hnd1 _].
    destruct Hwf as [_ Hlt]. rewrite Forall_forall in Hlt.
    exists (fst (objects_create (req_user request) (now clock) la lo db)).
    split; [|split; reflexivity].
    unfold todays_latest. apply last_by_id_greatest.
    + now apply NoDup_ids_filter.
    + apply filter_In. simpl. split; [apply in_elt|].
      unfold on_day; simpl. now rewrite Z.eqb_refl, Hday, Z.eqb_refl.
    + intros b Hb. apply filter_In in Hb as [Hb _]. simpl in Hb.
      apply in_app_or in Hb as [Hb|[<-|[]]]; simpl; [|lia].
      specialize (Hlt b Hb). lia.
  - pose proof (save_wf (restart_cycle a0 (now clock) la lo) db Hwf) as [Hnd1 _].
    destruct Hwf as [Hnd _].
    pose proof (last_by_id_spec
                  (filter (on_day (req_user request) (today clock)) (rows db))) as S.
    unfold todays_latest in L. rewrite L in S. destruct S as [Hin Hmax].
    apply filter_In in Hin as [Hin Hon].
    assert (Hon' : on_day (req_user request) (today clock)
                     (restart_cycle a0 (now clock) la lo) = true).
    { rewrite (restart_cycle_on_day a0 _ la lo _ _ _ _ Hon Hday). exact Hon. }
    exists (restart_cycle a0 (now clock) la lo). split; [|split; reflexivity].
    unfold todays_latest. apply last_by_id_greatest.
    + now apply NoDup_ids_filter.
    + apply filter_In. split; [|exact Hon']. simpl.
      apply in_map_iff. exists a0. split; [|assumption].
      unfold replace_row. simpl. now rewrite Z.eqb_refl.
    + intros b Hb. apply filter_In in Hb as [Hb Hbon]. simpl in Hb.
      apply in_map_iff in Hb as (r0 & <- & Hr0). unfold replace_row in *.
      simpl in *. destruct (id r0 =? id a0); simpl; [lia|].
      apply Hmax, filter_In. auto.
Qed.

(** X7: after a punch-in answered with 201 on a well-formed table, any
    further punch-in of that user on that day is turned down: it is
    answered with 400, or raises, and the table stays as the first
    punch-in left it. *)
Theorem punch_in_twice_refused c1 q1 db r1 db1 c2 q2 :
  wf_store db ->
  dt_date (now c1) = today c1 ->
  PunchInView_post c1 q1 db = (Ok r1, db1) ->
  status_code r1 = 201 ->
  req_user q2 = req_user q1 ->
  today c2 = today c1 ->
  match PunchInView_post c2 q2 db1 with
  | (Ok r2, db2) => status_code r2 = 400 /\ db2 = db1
  | (Raise _, db2) => db2 = db1
  end.
Proof.
  intros Hwf Hday E Hcode Hu Hd.
  destruct (punch_in_becomes_latest _ _ _ _ _ Hwf Hday E Hcode)
    as (a1 & L & _ & Hopen).
  unfold PunchInView_post. rewrite Hu, Hd, L, Hopen.
  destruct (negb _ || negb _); [split; reflexivity|].
  destruct (py_float (dict_get "latitude" _)) as [la|]; [|reflexivity].
  destruct (py_float (dict_get "longitude" _)) as [lo|]; [|reflexivity].
  destruct (find_nearest la lo) as [nb d].
  destruct (py_gt d PUNCH_RADIUS); [destruct nb|]; try split; reflexivity.
Qed.

(** X8: after an accepted punch-in on a well-formed table, within the day
    of the request, the status view reports is_punched_in = true,
    has_punched_out = false and the time of the punch-in, however many
    rows the user has for the day. *)
Theorem status_after_punch_in c1 q1 db r1 db1 clock request :
  wf_store db ->
  dt_date (now c1) = today c1 ->
  PunchInView_post c1 q1 db = (Ok r1, db1) ->
  status_code r1 = 201 ->
  req_user request = req_user q1 ->
  today clock = today c1 ->
  let r := fst (TodayAttendanceView_get clock request db1) in
  status_field "is_punched_in" r = Some (PyBool true) /\
  status_field "has_punched_out" r = Some (PyBool false) /\
  status_field "punch_in_time" r = Some (PyDatetime (now c1)) /\
  status_field "punch_out_time" r = Some PyNone.
Proof.
  intros Hwf Hday E Hcode Hu Hd.
  destruct (punch_in_becomes_latest _ _ _ _ _ Hwf Hday E Hcode)
    as (a1 & L & Hin & Hopen).
  unfold TodayAttendanceView_get. rewrite Hu, Hd, L. simpl.
  unfold dict_lookup2; simpl. rewrite Hin, Hopen. simpl. auto.
Qed.

(** After a punch-out answered with 200 on a table where the user has at
    most one row for the day, that row is the only one and it is closed. *)
Lemma punch_out_leaves_one_closed_row clock request db r db1 :
  NoDup (map id (rows db)) ->
  (List.length (filter (on_day (req_user request) (today clock)) (rows db)) <= 1)%nat ->
  PunchOutView_post clock request db = (Ok r, db1) ->
  status_code r = 200 ->
  exists a user_lat user_lon,
    filter (on_day (req_user request) (today clock)) (rows db) = [a] /\
    filter (on_day (req_user request) (today clock)) (rows db1)
      = [close_cycle a (now clock) user_lat user_lon] /\
    map id (rows db1) = map id (rows db).
Proof.
  intros Hnd Hone E Hcode.
  destruct (punch_out_closed _ _ _ _ _ E Hcode) as (a & la & lo & Hact & ->).
  apply todays_active_In in Hact as (Ha & Hon & _).
  assert (Hrows : filter (on_day (req_user request) (today clock)) (rows db) = [a]).
  { assert (Hin : In a (filter (on_day (req_user request) (today clock)) (rows db)))
      by (apply filter_In; auto).
    destruct (filter _ (rows db)) as [|x [|y l]]; simpl in *.
    - contradiction.
    - destruct Hin as [->|[]]. reflexivity.
    - lia. }
  exists a, la, lo. split; [assumption|]. split.
  - simpl. apply filter_replace_only with (a0 := a); auto.
  - apply save_ids.
Qed.

(** X9: after a punch-out answered with 200 on a well-formed table where
    the user has at most one row for the day, any further punch-out of
    that user on that day is turned down, the table unchanged; with
    numeric coordinates the answer is the not-punched-in rejection. *)
Theorem punch_out_twice_refused c1 q1 db r1 db1 c2 q2 :
  wf_store db ->
  (List.length (filter (on_day (req_user q1) (today c1)) (rows db)) <= 1)%nat ->
  PunchOutView_post c1 q1 db = (Ok r1, db1) ->
  status_code r1 = 200 ->
  req_user q2 = req_user q1 ->
  today c2 = today c1 ->
  match PunchOutView_post c2 q2 db1 with
  | (Ok r2, db2) => status_code r2 = 400 /\ db2 = db1
  | (Raise _, db2) => db2 = db1
  end /\
  (forall user_lat user_lon,
      coordinates q2 user_lat user_lon ->
      PunchOutView_post c2 q2 db1 = (Ok not_punched_in, db1)).
Proof.
  intros [Hnd _] Hone E Hcode Hu Hd.
  destruct (punch_out_leaves_one_closed_row _ _ _ _ _ Hnd Hone E Hcode)
    as (a & la & lo & _ & Hrows1 & _).
  assert (L : todays_active (req_user q2) (today c2) db1 = None).
  { unfold todays_active. rewrite Hu, Hd.
    rewrite (filter_ext (active_on_day (req_user q1) (today c1))
               (fun x => on_day (req_user q1) (today c1) x
                         && punch_out_isnull x)) by reflexivity.
    now rewrite filter_andb, Hrows1. }
  split.
  - unfold PunchOutView_post. rewrite L.
    destruct (negb _ || negb _); [split; reflexivity|].
    destruct (py_float (dict_get "latitude" _)) as [la'|]; [|reflexivity].
    destruct (py_float (dict_get "longitude" _)) as [lo'|]; [|reflexivity].
    split; reflexivity.
  - intros user_lat user_lon (H1 & H2 & H3 & H4).
    unfold PunchOutView_post. now rewrite H1, H2, H3, H4, L.
Qed.

(** X10: after a punch-out answered with 200 on a well-formed table where
    the user has at most one row for the day, a punch-in of that user on
    that day, with numeric coordinates and the nearest branch within the
    radius, is accepted as an update: it restarts the same row (no row is
    added, primary keys stay) and the row is open again. *)
Theorem punch_in_after_punch_out c1 q1 db r1 db1 c2 q2 user_lat user_lon b d :
  wf_store db ->
  (List.length (filter (on_day (req_user q1) (today c1)) (rows db)) <= 1)%nat ->
  PunchOutView_post c1 q1 db = (Ok r1, db1) ->
  status_code r1 = 200 ->
  req_user q2 = req_user q1 ->
  today c2 = today c1 ->
  coordinates q2 user_lat user_lon ->
  find_nearest user_lat user_lon = (Some b, d) ->
  py_gt d PUNCH_RADIUS = false ->
  exists a r2 db2,
    filter (on_day (req_user q1) (today c1)) (rows db) = [a] /\
    PunchInView_post c2 q2 db1 = (Ok r2, db2) /\
    PunchInSuccess r2 "Punch in updated successfully" b d
      (restart_cycle a (now c2) user_lat user_lon) /\
    map id (rows db2) = map id (rows db) /\
    In (restart_cycle a (now c2) user_lat user_lon) (rows db2).
Proof.
  intros [Hnd _] Hone E Hcode Hu Hd (H1 & H2 & H3 & H4) Hn G.
  destruct (punch_out_leaves_one_closed_row _ _ _ _ _ Hnd Hone E Hcode)
    as (a & la & lo & Hrows & Hrows1 & Hids).
  assert (Ha1 : In (close_cycle a (now c1) la lo) (rows db1)).
  { assert (In (close_cycle a (now c1) la lo)
              (filter (on_day (req_user q1) (today c1)) (rows db1)))
      by (rewrite Hrows1; now left).
    now apply filter_In in H. }
  exists a. unfold PunchInView_post.
  rewrite H1, H2, H3, H4, Hn, G, Hu, Hd. cbn [negb orb].
  unfold todays_latest. rewrite Hrows1. simpl.
  eexists _, _. split; [assumption|]. split; [reflexivity|]. split; [|split].
  - unfold PunchInSuccess, message_of; simpl. repeat split.
  - simpl. rewrite map_map. rewrite <- Hids. apply map_ext. intros r.
    apply (replace_row_id (restart_cycle (close_cycle a (now c1) la lo)
                             (now c2) user_lat user_lon)).
  - simpl. apply in_map_iff. exists (close_cycle a (now c1) la lo).
    split; [|assumption]. unfold replace_row. simpl. now rewrite Z.eqb_refl.
Qed.

End Twice.

(** ** The status view and the punch views *)

Lemma on_day_punch_in_time u d a :
  on_day u d a = true -> exists t, punch_in_time a = Some t.
Proof.
  unfold on_day. intros H. apply andb_true_iff in H as [_ H].
  destruct (punch_in_time a) as [t|]; [eauto|discriminate].
Qed.

Section StatusAndPunch.

Context {imports : Imports}.

(** X11: the status view always answers 200 and leaves the table as it
    is.  With no row of the user for the day both flags are false; with a
    row, exactly one flag is true: is_punched_in when the latest row has
    no punch-out time, has_punched_out when it has one. *)
Theorem status_flags clock request db :
  exists r,
    TodayAttendanceView_get clock request db = (Ok r, db) /\
    status_code r = 200 /\
    match todays_latest (req_user request) (today clock) db with
    | None =>
        status_field "is_punched_in" (Ok r) = Some (PyBool false) /\
        status_field "has_punched_out" (Ok r) = Some (PyBool false)
    | Some a =>
        status_field "is_punched_in" (Ok r) = Some (PyBool (punch_out_isnull a)) /\
        status_field "has_punched_out" (Ok r)
          = Some (PyBool (negb (punch_out_isnull a)))
    end.
Proof.
  unfold TodayAttendanceView_get.
  destruct (todays_latest _ _ db) as [a|] eqn:L.
  - eexists. split; [reflexivity|]. split; [reflexivity|].
    apply todays_latest_In in L as [_ Hon].
    destruct (on_day_punch_in_time _ _ _ Hon) as [t Ht].
    simpl. unfold dict_lookup2, punch_out_isnull; simpl. rewrite Ht.
    destruct (punch_out_time a); simpl; auto.
  - eexists. split; [reflexivity|]. split; [reflexivity|]. simpl. auto.
Qed.

(** X12: the status view foretells the punch-in: with numeric coordinates
    and a nearest distance not above the radius, the punch-in is turned
    down as already punched in exactly when the status view reports
    is_punched_in = true, and it is accepted otherwise unless no branch
    was resolved. *)
Theorem status_foretells_punch_in clock request db user_lat user_lon nb d :
  coordinates request user_lat user_lon ->
  find_nearest user_lat user_lon = (nb, d) ->
  py_gt d PUNCH_RADIUS = false ->
  ((exists r, PunchInView_post clock request db = (Ok r, db) /\
              AlreadyPunchedInError r)
   <-> status_field "is_punched_in"
         (fst (TodayAttendanceView_get clock request db)) = Some (PyBool true)) /\
  (status_field "is_punched_in"
     (fst (TodayAttendanceView_get clock request db)) = Some (PyBool false) ->
   nb <> None ->
   exists r db', PunchInView_post clock request db = (Ok r, db') /\
                 status_code r = 201).
Proof.
  intros (H1 & H2 & H3 & H4) Hn G.
  unfold PunchInView_post, TodayAttendanceView_get.
  rewrite H1, H2, H3, H4, Hn, G. cbn [negb orb].
  destruct (todays_latest _ _ db) as [a|] eqn:L.
  - apply todays_latest_In in L as [_ Hon].
    destruct (on_day_punch_in_time _ _ _ Hon) as [t Ht].
    simpl. unfold dict_lookup2; simpl. rewrite Ht.
    destruct (punch_out_time a) as [t'|]; simpl.
    + split; [split|].
      * intros (r & E & Herr). exfalso.
        destruct nb; simpl in E; [|discriminate]. injection E as <- _.
        destruct Herr as [[Hcode _] _]. discriminate.
      * discriminate.
      * intros _ Hnb. destruct nb; [|contradiction]. simpl. eauto.
    + split; [split|].
      * reflexivity.
      * intros _. eexists. split; [reflexivity|].
        unfold AlreadyPunchedInError, rejected, message_of; simpl. auto.
      * discriminate.
  - simpl. unfold dict_lookup2; simpl. split; [split|].
    + intros (r & E & Herr). exfalso.
      destruct nb; simpl in E; [|discriminate]. injection E as <- _.
      destruct Herr as [[Hcode _] _]. discriminate.
    + discriminate.
    + intros _ Hnb. destruct nb; [|contradiction]. simpl. eauto.
Qed.

(** X13: when the status view reports is_punched_in = true, the user has
    an open row for the day, so a punch-out with numeric coordinates is
    not turned down as not punched in. *)
Theorem punched_in_can_punch_out clock request db user_lat user_lon :
  coordinates request user_lat user_lon ->
  status_field "is_punched_in"
    (fst (TodayAttendanceView_get clock request db)) = Some (PyBool true) ->
  (exists a, todays_active (req_user request) (today clock) db = Some a) /\
  fst (PunchOutView_post clock request db) <> Ok not_punched_in.
Proof.
  intros (H1 & H2 & H3 & H4) Hst.
  assert (Hact : exists a, todays_active (req_user request) (today clock) db = Some a).
  { revert Hst. unfold TodayAttendanceView_get.
    destruct (todays_latest _ _ db) as [a|] eqn:L; [|discriminate].
    apply todays_latest_In in L as [Ha Hon].
    destruct (on_day_punch_in_time _ _ _ Hon) as [t Ht].
    simpl. unfold dict_lookup2; simpl. rewrite Ht.
    destruct (punch_out_time a) as [t'|] eqn:Hout; [discriminate|]. intros _.
    pose proof (first_by_id_spec
                  (filter (active_on_day (req_user request) (today clock)) (rows db)))
      as S.
    unfold todays_active. destruct (first_by_id _) as [x|]; [eauto|].
    exfalso. assert (Hin : In a (filter (active_on_day (req_user request)
                                           (today clock)) (rows db))).
    { apply filter_In. split; [assumption|].
      unfold active_on_day, punch_out_isnull. now rewrite Hon, Hout. }
    now rewrite S in Hin. }
  split; [assumption|]. destruct Hact as [a Hact].
  unfold PunchOutView_post. rewrite H1, H2, H3, H4, Hact. cbn [negb orb].
  destruct (find_nearest user_lat user_lon) as [nb d].
  destruct (py_gt d PUNCH_RADIUS); destruct nb; simpl; discriminate.
Qed.

End StatusAndPunch.

(** ** [detect_branch] and the range check of the punch views *)

Lemma SFleb_trans x y z : SFleb x y = true -> SFleb y z = true -> SFleb x z = true.
Proof.
  unfold SFleb.
  destruct x as [sx|sx| |sx mx ex], y as [sy|sy| |sy my ey],
           z as [sz|sz| |sz mz ez]; sf_cases.
Qed.

Lemma SFleb_false_ltb x y :
  SFleb x y = false -> SFleb x x = true -> SFleb y y = true -> SFltb y x = true.
Proof.
  unfold SFltb, SFleb.
  destruct x as [sx|sx| |sx mx ex], y as [sy|sy| |sy my ey]; sf_cases.
Qed.

Lemma py_le_trans x y z : py_le x y = true -> py_le y z = true -> py_le x z = true.
Proof. unfold py_le. rewrite !leb_spec. apply SFleb_trans. Qed.

Lemma py_le_false_gt x y :
  py_le x y = false -> py_le x x = true -> py_le y y = true -> py_gt x y = true.
Proof. unfold py_gt, py_le. rewrite ltb_spec, !leb_spec. apply SFleb_false_ltb. Qed.

Section DetectBranch.

Context {imports : Imports}.

Lemma detect_branch_loop_verdict user_lat user_lon (l : list Branch) :
  fst (fst (detect_branch_loop user_lat user_lon l))
  = existsb (fun b => py_le (dist_to user_lat user_lon b) PUNCH_RADIUS) l.
Proof.
  induction l as [|b l IH]; simpl; [reflexivity|].
  fold (dist_to user_lat user_lon b).
  destruct (py_le (dist_to user_lat user_lon b) PUNCH_RADIUS); simpl; auto.
Qed.

Lemma detect_branch_loop_distance user_lat user_lon (l : list Branch) n d :
  detect_branch_loop user_lat user_lon l = (true, n, Some d) ->
  exists b, In b l /\ d = dist_to user_lat user_lon b.
Proof.
  induction l as [|b l IH]; simpl; [discriminate|].
  fold (dist_to user_lat user_lon b).
  destruct (py_le (dist_to user_lat user_lon b) PUNCH_RADIUS).
  - intros E. injection E as _ <-. eauto.
  - intros E. destruct (IH E) as (b' & Hb' & ->). eauto.
Qed.

(** X14: with at least one branch, distances that are numbers below
    infinity and a radius that is a number, [detect_branch] finds a branch
    exactly when the range check of the punch views passes, and the
    distance it reports is never below the one the punch views use. *)
Theorem detect_branch_agrees_with_range_check user_lat user_lon :
  BRANCHES <> [] ->
  (forall b, In b BRANCHES -> py_lt (dist_to user_lat user_lon b) infinity = true) ->
  py_le PUNCH_RADIUS PUNCH_RADIUS = true ->
  fst (fst (detect_branch user_lat user_lon))
    = negb (py_gt (snd (find_nearest user_lat user_lon)) PUNCH_RADIUS) /\
  (forall n d, detect_branch user_lat user_lon = (true, n, Some d) ->
               py_le (snd (find_nearest user_lat user_lon)) d = true).
Proof.
  intros Hne Hfin HR.
  assert (H : nearest_so_far user_lat user_lon ([] ++ BRANCHES)
                (find_nearest user_lat user_lon)).
  { apply nearest_loop_so_far; [left; auto|exact Hfin]. }
  simpl in H. destruct H as [[Hnil _]|(before & b & after & E & Hacc & Hmin & _)];
    [contradiction|].
  assert (Hb : In b BRANCHES) by (rewrite E; apply in_elt).
  rewrite Hacc. simpl. split.
  - unfold detect_branch. rewrite detect_branch_loop_verdict.
    destruct (existsb _ BRANCHES) eqn:X.
    + apply existsb_exists in X as (b' & Hb' & Hle).
      rewrite py_le_not_gt; [reflexivity|].
      eapply py_le_trans; [apply Hmin; exact Hb'|exact Hle].
    + rewrite py_le_false_gt; [reflexivity| |apply Hmin; exact Hb|exact HR].
      destruct (py_le (dist_to user_lat user_lon b) PUNCH_RADIUS) eqn:Y;
        [|reflexivity].
      assert (existsb (fun b0 => py_le (dist_to user_lat user_lon b0) PUNCH_RADIUS)
                BRANCHES = true)
        by (apply existsb_exists; eauto).
      congruence.
  - intros n d Hd. apply detect_branch_loop_distance in Hd as (b' & Hb' & ->).
    now apply Hmin.
Qed.

(** X15: with no branch configured and a radius below infinity,
    [detect_branch] answers (False, None, None), the loop of the punch
    views keeps no branch, and a punch with numeric coordinates raises
    [TypeError] on reading the branch name, the table unchanged; a
    punch-out without an open row is still turned down as not punched
    in. *)
Theorem no_branches_configured clock request db user_lat user_lon :
  BRANCHES = [] ->
  py_lt PUNCH_RADIUS infinity = true ->
  coordinates request user_lat user_lon ->
  detect_branch user_lat user_lon = (false, None, None) /\
  find_nearest user_lat user_lon = (None, infinity) /\
  PunchInView_post clock request db = (Raise TypeError, db) /\
  PunchOutView_post clock request db =
    match todays_active (req_user request) (today clock) db with
    | Some _ => (Raise TypeError, db)
    | None => (Ok not_punched_in, db)
    end.
Proof.
  intros Hnil HR (H1 & H2 & H3 & H4).
  assert (Hn : find_nearest user_lat user_lon = (None, infinity))
    by (unfold find_nearest; now rewrite Hnil).
  assert (G : py_gt infinity PUNCH_RADIUS = true) by exact HR.
  repeat split.
  - unfold detect_branch. now rewrite Hnil.
  - exact Hn.
  - unfold PunchInView_post. now rewrite H1, H2, H3, H4, Hn, G.
  - unfold PunchOutView_post. rewrite H1, H2, H3, H4, Hn, G. cbn [negb orb].
    destruct (todays_active _ _ db); reflexivity.
Qed.

End DetectBranch.

(** ** Signing in *)

Lemma replace_user_pk (u r : User.t) : User.pk (replace_user u r) = User.pk r.
Proof.
  unfold replace_user. destruct (Z.eqb_spec (User.pk r) (User.pk u)); congruence.
Qed.

Lemma same_pk_same_user (l : list User.t) (r u : User.t) :
  NoDup (map User.pk l) -> In r l -> In u l -> User.pk r = User.pk u -> r = u.
Proof.
  induction l as [|x l IH]; simpl; intros Hnd Hr Hu E; [contradiction|].
  inversion Hnd as [|? ? Hnotin Hnd']; subst.
  destruct Hr as [<-|Hr], Hu as [<-|Hu]; auto.
  - exfalso. apply Hnotin. rewrite E. now apply in_map.
  - exfalso. apply Hnotin. rewrite <- E. now apply in_map.
Qed.

Lemma unique_email_filter (l : list User.t) (u : User.t) :
  NoDup (map User.email l) -> In u l ->
  filter (fun r => String.eqb (User.email r) (User.email u)) l = [u].
Proof.
  induction l as [|x l IH]; simpl; intros Hnd Hu; [contradiction|].
  inversion Hnd as [|? ? Hnotin Hnd']; subst.
  destruct Hu as [->|Hu].
  - rewrite String.eqb_refl. f_equal. apply filter_nil_iff.
    intros r Hr. apply String.eqb_neq. intros E. apply Hnotin.
    rewrite <- E. now apply in_map.
  - destruct (String.eqb_spec (User.email x) (User.email u)) as [E|E].
    + exfalso. apply Hnotin. rewrite E. now apply in_map.
    + now apply IH.
Qed.

Section SignInProperties.

Context {auth : AuthImports}.

(** The user a sign-in saves over [u0]. *)
Local Abbreviation refreshed u0 nm pic t :=
  {| User.pk := User.pk u0; User.email := User.email u0; User.name := nm;
     User.picture := pic; User.lastlogin := t |}.

(** What lies behind an answer with tokens. *)
Lemma sign_in_tokens_inv clock request us acc ref e nm pic i us' :
  GoogleAuthView_post clock request us = (AuthTokens acc ref e nm pic i, us') ->
  truthy (dict_get "id_token" (data request)) = true /\
  exists info,
    verify_oauth2_token (dict_get "id_token" (data request)) GOOGLE_CLIENT_ID 300
      = inl info /\
    dict_get "email" info = PyStr e /\
    In e WHITELISTED_EMAILS /\
    nm = match dict_lookup "name" info with Some v => v | None => PyStr e end /\
    pic = dict_get "picture" info /\
    ((filter (fun u => String.eqb (User.email u) e) (users us) = [] /\
      i = next_pk us /\
      us' = {| users := users us ++
                 [ {| User.pk := next_pk us; User.email := e; User.name := nm;
                      User.picture := pic; User.lastlogin := now clock |} ];
               next_pk := next_pk us + 1 |}) \/
     (exists u0,
         filter (fun u => String.eqb (User.email u) e) (users us) = [u0] /\
         i = User.pk u0 /\
         us' = save_user (refreshed u0 nm pic (now clock)) us)).
Proof.
  unfold GoogleAuthView_post.
  destruct (truthy (dict_get "id_token" (data request))); simpl; [|discriminate].
  destruct (verify_oauth2_token _ _ _) as [info|[]]; simpl; try discriminate.
  destruct (dict_get "email" info) as [| | |s| |] eqn:Em; simpl; try discriminate.
  destruct (existsb (String.eqb s) WHITELISTED_EMAILS) eqn:W; [|discriminate].
  unfold get_or_create.
  destruct (filter _ (users us)) as [|u0 [|u1 l]] eqn:F; simpl.
  - intros E. injection E as <- <- <- <- <- <- <-.
    split; [reflexivity|]. exists info. repeat split; auto.
    apply existsb_exists in W as (x & Hx & Ex). apply String.eqb_eq in Ex.
    now subst x.
  - intros E. injection E as <- <- <- <- <- <- <-.
    split; [reflexivity|]. exists info. repeat split; auto.
    + apply existsb_exists in W as (x & Hx & Ex). apply String.eqb_eq in Ex.
      now subst x.
    + right. exists u0. auto.
  - destruct (String.eqb_spec s s); discriminate.
Qed.

(** A sign-in that fails writes nothing and answers 400 or 403. *)
Lemma sign_in_error_inv clock request us msg code us' :
  GoogleAuthView_post clock request us = (AuthError msg code, us') ->
  us' = us /\ (code = 400 \/ (code = 403 /\ msg = "Not allowed")).
Proof.
  unfold GoogleAuthView_post.
  destruct (truthy _); simpl;
    [|intros E; injection E as <- <- <-; auto].
  destruct (verify_oauth2_token _ _ _) as [info|[]]; simpl;
    try (intros E; injection E as <- <- <-; auto).
  destruct (whitelisted (dict_get "email" info)) as [e|];
    [|intros E; injection E as <- <- <-; auto].
  unfold get_or_create.
  destruct (filter _ (users us)) as [|u0 [|u1 l]]; simpl; try discriminate.
  intros E; injection E as <- <- <-; auto.
Qed.

(** The user behind an answer with tokens is stored. *)
Lemma sign_in_stored_user clock request us acc ref e nm pic i us' :
  GoogleAuthView_post clock request us = (AuthTokens acc ref e nm pic i, us') ->
  exists u, In u (users us') /\
            User.pk u = i /\ User.email u = e /\ User.name u = nm /\
            User.picture u = pic /\ User.lastlogin u = now clock.
Proof.
  intros E. apply sign_in_tokens_inv in E
    as (_ & info & _ & _ & _ & _ & _ & [(F & -> & ->)|(u0 & F & -> & ->)]).
  - exists {| User.pk := next_pk us; User.email := e; User.name := nm;
              User.picture := pic; User.lastlogin := now clock |}.
    repeat split. simpl. apply in_elt.
  - exists (refreshed u0 nm pic (now clock)).
    assert (Hu0 : In u0 (filter (fun u => String.eqb (User.email u) e) (users us)))
      by (rewrite F; now left).
    apply filter_In in Hu0 as [Hu0 He]. apply String.eqb_eq in He.
    repeat split; try assumption.
    simpl. apply in_map_iff. exists u0. split; [|assumption].
    unfold replace_user. simpl. now rewrite Z.eqb_refl.
Qed.

(** X16: a sign-in that fails leaves the users as they are and answers
    400, or 403 "Not allowed".  A sign-in that answers with tokens had a
    token that the verifier accepted for an email of the allow-list; the
    user with the returned id is then stored with that email, the token's
    name (the email when the token has none) and picture, and the time of
    the sign-in. *)
Theorem sign_in_outcomes clock request us :
  match GoogleAuthView_post clock request us with
  | (AuthError msg code, us') =>
      us' = us /\ (code = 400 \/ (code = 403 /\ msg = "Not allowed"))
  | (AuthTokens acc ref e nm pic i, us') =>
      (exists info,
          verify_oauth2_token (dict_get "id_token" (data request))
            GOOGLE_CLIENT_ID 300 = inl info /\
          dict_get "email" info = PyStr e /\
          In e WHITELISTED_EMAILS /\
          nm = match dict_lookup "name" info with
               | Some v => v
               | None => PyStr e
               end /\
          pic = dict_get "picture" info) /\
      (exists u,
          In u (users us') /\
          User.pk u = i /\ User.email u = e /\ User.name u = nm /\
          User.picture u = pic /\ User.lastlogin u = now clock)
  end.
Proof.
  destruct (GoogleAuthView_post clock request us) as [[msg code|acc ref e nm pic i] us']
    eqn:E.
  - now apply sign_in_error_inv in E.
  - split; [|now apply sign_in_stored_user in E].
    apply sign_in_tokens_inv in E as (_ & info & Hv & Hem & Hw & Hnm & Hpic & _).
    exists info. auto.
Qed.

(** Saving a user of the table under its own primary key and email
    changes no email of the table. *)
Lemma save_user_emails (u0 u' : User.t) (us : UserStore) :
  NoDup (map User.pk (users us)) -> In u0 (users us) ->
  User.pk u' = User.pk u0 -> User.email u' = User.email u0 ->
  map User.email (users (save_user u' us)) = map User.email (users us).
Proof.
  intros Hpk Hu0 Hk He. simpl. rewrite map_map. apply map_ext_in.
  intros r Hr. unfold replace_user.
  destruct (Z.eqb_spec (User.pk r) (User.pk u')) as [Ek|]; [|reflexivity].
  rewrite Hk in Ek. now rewrite He, (same_pk_same_user _ _ _ Hpk Hr Hu0 Ek).
Qed.

Lemma save_user_pks (u' : User.t) (us : UserStore) :
  map User.pk (users (save_user u' us)) = map User.pk (users us).
Proof. simpl. rewrite map_map. apply map_ext, replace_user_pk. Qed.

(** A sign-in keeps the users well formed. *)
Lemma sign_in_wf clock request us :
  wf_users us -> wf_users (snd (GoogleAuthView_post clock request us)).
Proof.
  intros Hwf.
  destruct (GoogleAuthView_post clock request us) as [[msg code|acc ref e nm pic i] us']
    eqn:E.
  - apply sign_in_error_inv in E as [-> _]. exact Hwf.
  - destruct Hwf as (Hpk & Hlt & Hem).
    apply sign_in_tokens_inv in E
      as (_ & info & _ & _ & _ & _ & _ & [(F & -> & ->)|(u0 & F & -> & ->)]);
      simpl.
    + rewrite Forall_forall in Hlt. repeat split; simpl.
      * rewrite map_app. apply NoDup_app; [assumption| |].
        -- constructor; [intros []|constructor].
        -- intros k Hk [<-|[]]. apply in_map_iff in Hk as (u & Eu & Hu).
           specialize (Hlt u Hu). simpl in Eu. lia.
      * apply Forall_app. split.
        -- apply Forall_forall. intros u Hu. specialize (Hlt u Hu). lia.
        -- constructor; [simpl; lia|constructor].
      * rewrite map_app. apply NoDup_app; [assumption| |].
        -- constructor; [intros []|constructor].
        -- intros k Hk [<-|[]]. apply in_map_iff in Hk as (u & Eu & Hu).
           assert (Hin : In u (filter (fun u => String.eqb (User.email u) e)
                                 (users us)))
             by (apply filter_In; split; [assumption|now apply String.eqb_eq]).
           now rewrite F in Hin.
    + assert (Hu0 : In u0 (users us)).
      { assert (H : In u0 (filter (fun u => String.eqb (User.email u) e) (users us)))
          by (rewrite F; now left).
        now apply filter_In in H. }
      split; [|split].
      * now rewrite save_user_pks.
      * simpl. apply Forall_map. rewrite Forall_forall in *. intros r Hr.
        rewrite replace_user_pk. now apply Hlt.
      * now rewrite (save_user_emails u0).
Qed.

(** X17: signing in on well-formed users (unique primary keys and emails)
    keeps them well formed and removes nobody: either every primary key
    and email stays as it is, or one user is added at the end, with the
    next primary key and an email nobody had. *)
Theorem sign_in_keeps_users clock request us :
  wf_users us ->
  wf_users (snd (GoogleAuthView_post clock request us)) /\
  ((map User.pk (users (snd (GoogleAuthView_post clock request us)))
      = map User.pk (users us) /\
    map User.email (users (snd (GoogleAuthView_post clock request us)))
      = map User.email (users us)) \/
   (exists u,
       users (snd (GoogleAuthView_post clock request us)) = users us ++ [u] /\
       User.pk u = next_pk us /\
       ~ In (User.email u) (map User.email (users us)))).
Proof.
  intros Hwf. split; [now apply sign_in_wf|].
  destruct (GoogleAuthView_post clock request us) as [[msg code|acc ref e nm pic i] us']
    eqn:E; simpl.
  - apply sign_in_error_inv in E as [-> _]. left. auto.
  - destruct Hwf as (Hpk & _ & _).
    apply sign_in_tokens_inv in E
      as (_ & info & _ & _ & _ & _ & _ & [(F & -> & ->)|(u0 & F & -> & ->)]).
    + right. eexists. split; [reflexivity|]. split; [reflexivity|]. simpl.
      intros Hin. apply in_map_iff in Hin as (u & Eu & Hu).
      assert (H : In u (filter (fun u => String.eqb (User.email u) e) (users us)))
        by (apply filter_In; split; [assumption|now apply String.eqb_eq]).
      now rewrite F in H.
    + left. assert (Hu0 : In u0 (users us)).
      { assert (H : In u0 (filter (fun u => String.eqb (User.email u) e) (users us)))
          by (rewrite F; now left).
        now apply filter_In in H. }
      split; [apply save_user_pks|now apply (save_user_emails u0)].
Qed.

(** X18: after a sign-in answered with tokens on well-formed users, a
    later sign-in with a token that the verifier accepts for the same
    email is answered with tokens for the same user id; no user is added,
    and the stored name and picture are those of the later token. *)
Theorem sign_in_again_same_user c1 q1 us acc ref e nm pic i us1 c2 q2 info2 :
  wf_users us ->
  GoogleAuthView_post c1 q1 us = (AuthTokens acc ref e nm pic i, us1) ->
  truthy (dict_get "id_token" (data q2)) = true ->
  verify_oauth2_token (dict_get "id_token" (data q2)) GOOGLE_CLIENT_ID 300
    = inl info2 ->
  dict_get "email" info2 = PyStr e ->
  exists acc2 ref2 nm2 pic2 us2 u2,
    GoogleAuthView_post c2 q2 us1 = (AuthTokens acc2 ref2 e nm2 pic2 i, us2) /\
    map User.pk (users us2) = map User.pk (users us1) /\
    map User.email (users us2) = map User.email (users us1) /\
    In u2 (users us2) /\ User.pk u2 = i /\
    User.name u2 = nm2 /\ User.picture u2 = pic2 /\
    nm2 = match dict_lookup "name" info2 with Some v => v | None => PyStr e end /\
    pic2 = dict_get "picture" info2.
Proof.
  intros Hwf E1 Ht Hv Hem.
  assert (Hwf1 : wf_users us1).
  { pose proof (sign_in_wf c1 q1 us Hwf) as H. now rewrite E1 in H. }
  destruct (sign_in_stored_user _ _ _ _ _ _ _ _ _ _ E1)
    as (u & Hu & Hk & He & _).
  apply sign_in_tokens_inv in E1 as (_ & _ & _ & _ & Hw & _).
  destruct Hwf1 as (Hpk1 & _ & Hem1).
  pose proof (unique_email_filter _ _ Hem1 Hu) as F. rewrite He in F.
  assert (W : existsb (String.eqb e) WHITELISTED_EMAILS = true).
  { apply existsb_exists. exists e. split; [assumption|apply String.eqb_refl]. }
  subst i. unfold GoogleAuthView_post. rewrite Ht, Hv, Hem. simpl. rewrite W.
  unfold get_or_create. rewrite F. simpl.
  eexists _, _, _, _, _, (refreshed u _ _ (now c2)).
  split; [reflexivity|]. split; [apply save_user_pks|].
  split; [now apply (save_user_emails u)|]. repeat split; auto.
  simpl. apply in_map_iff. exists u. split; [|assumption].
  unfold replace_user. simpl. now rewrite Z.eqb_refl.
Qed.

End SignInProperties.

(** X19: a sign-in whose token the verifier accepts for an email that is
    not in the allow-list (or for no email) is answered 403 "Not allowed",
    whoever the users are, and leaves them as they are. *)
Theorem sign_in_not_allowed {auth : AuthImports} clock request us info :
  truthy (dict_get "id_token" (data request)) = true ->
  verify_oauth2_token (dict_get "id_token" (data request)) GOOGLE_CLIENT_ID 300
    = inl info ->
  (forall e, dict_get "email" info = PyStr e -> ~ In e WHITELISTED_EMAILS) ->
  GoogleAuthView_post clock request us = (AuthError "Not allowed" 403, us).
Proof.
  intros Ht Hv Hno. unfold GoogleAuthView_post. rewrite Ht, Hv. simpl.
  destruct (dict_get "email" info) as [| | |s| |] eqn:Em; simpl; try reflexivity.
  destruct (existsb (String.eqb s) WHITELISTED_EMAILS) eqn:W; [|reflexivity].
  exfalso. apply existsb_exists in W as (x & Hx & Ex).
  apply String.eqb_eq in Ex. subst x. now apply (Hno s).
Qed.

(** X20: a sign-in without the key "id_token", or with null or the empty
    string under it, is answered 400 "id_token required" before the
    verifier is asked, and leaves the users as they are. *)
Theorem sign_in_without_token {auth : AuthImports} clock request us :
  dict_lookup "id_token" (data request) = None \/
  dict_lookup "id_token" (data request) = Some PyNone \/
  dict_lookup "id_token" (data request) = Some (PyStr "") ->
  GoogleAuthView_post clock request us = (AuthError "id_token required" 400, us).
Proof.
  intros H. unfold GoogleAuthView_post, dict_get.
  destruct H as [-> | [-> | ->]]; reflexivity.
Qed.

(** ** The further properties on the example configurations *)

Lemma views_preserve_wf_witness :
  wf_store (snd (@PunchInView_post demo morning near_head_office punched_out_table)) /\
  wf_store (snd (@PunchOutView_post demo morning near_head_office punched_out_table)) /\
  wf_store (snd (@TodayAttendanceView_get demo morning near_head_office
                   punched_out_table)).
Proof.
  apply (@views_preserve_wf demo morning near_head_office punched_out_table).
  split; [repeat constructor; intros []|repeat constructor].
Defined.

Lemma missing_coordinates_rejected_witness :
  @PunchInView_post demo morning without_coordinates punched_in_table
    = (Ok coordinates_required, punched_in_table) /\
  @PunchOutView_post demo morning without_coordinates punched_in_table
    = (Ok coordinates_required, punched_in_table) /\
  ValidationError coordinates_required.
Proof.
  apply (@missing_coordinates_rejected demo morning without_coordinates
           punched_in_table).
  left. reflexivity.
Defined.

Lemma punch_views_answer_witness :
  (exists r db', @PunchInView_post demo morning far_away punched_in_table = (Ok r, db')) /\
  (exists r db', @PunchOutView_post demo morning far_away punched_in_table = (Ok r, db')).
Proof.
  apply (@punch_views_answer demo morning far_away punched_in_table
           29.5%float 77.25%float).
  - repeat split.
  - discriminate.
  - intros b [<-|[<-|[]]]; vm_compute; reflexivity.
Defined.

Lemma views_leave_other_users_rows_witness :
  rows_of_others 7 (snd (@PunchInView_post demo evening near_head_office shared_table))
    = rows_of_others 7 shared_table /\
  rows_of_others 7 (snd (@PunchOutView_post demo evening near_head_office shared_table))
    = rows_of_others 7 shared_table /\
  rows_of_others 7 (snd (@TodayAttendanceView_get demo evening near_head_office
                           shared_table))
    = rows_of_others 7 shared_table.
Proof.
  apply (@views_leave_other_users_rows demo evening near_head_office shared_table).
  split.
  - simpl. repeat constructor; simpl; intros H; repeat destruct H as [H|H]; lia.
  - repeat constructor.
Defined.

Lemma one_row_per_day_kept_witness :
  one_row_per_day (snd (@PunchInView_post demo evening near_head_office
                          punched_out_table)) /\
  one_row_per_day (snd (@PunchOutView_post demo evening near_head_office
                          punched_out_table)) /\
  one_row_per_day (snd (@TodayAttendanceView_get demo evening near_head_office
                          punched_out_table)).
Proof.
  apply (@one_row_per_day_kept demo evening near_head_office punched_out_table).
  - split; [repeat constructor; intros []|repeat constructor].
  - intros u d. simpl. destruct (on_day u d (closed_row 1)); simpl; lia.
  - reflexivity.
Defined.

Lemma punch_in_twice_refused_witness :
  let db1 := snd (@PunchInView_post demo morning near_head_office empty_table) in
  match @PunchInView_post demo evening near_annex db1 with
  | (Ok r2, db2) => status_code r2 = 400 /\ db2 = db1
  | (Raise _, db2) => db2 = db1
  end.
Proof.
  intros db1.
  apply (@punch_in_twice_refused demo morning near_head_office empty_table
           (answer_of (@PunchInView_post demo morning near_head_office empty_table))
           db1 evening near_annex).
  - split; constructor.
  - reflexivity.
  - vm_compute; reflexivity.
  - reflexivity.
  - reflexivity.
  - reflexivity.
Defined.

Lemma status_after_punch_in_witness :
  let db1 := snd (@PunchInView_post demo morning near_head_office two_rows_table) in
  let r := fst (@TodayAttendanceView_get demo evening near_head_office db1) in
  status_field "is_punched_in" r = Some (PyBool true) /\
  status_field "has_punched_out" r = Some (PyBool false) /\
  status_field "punch_in_time" r = Some (PyDatetime (now morning)) /\
  status_field "punch_out_time" r = Some PyNone.
Proof.
  intros db1.
  apply (@status_after_punch_in demo morning near_head_office two_rows_table
           (answer_of (@PunchInView_post demo morning near_head_office two_rows_table))
           db1 evening near_head_office).
  - split.
    + simpl. repeat constructor; simpl; intros H; repeat destruct H as [H|H]; lia.
    + repeat constructor.
  - reflexivity.
  - vm_compute; reflexivity.
  - reflexivity.
  - reflexivity.
  - reflexivity.
Defined.

Lemma punch_out_twice_refused_witness :
  let db1 := snd (@PunchOutView_post demo morning near_head_office punched_in_table) in
  @PunchOutView_post demo evening far_away db1 = (Ok not_punched_in, db1).
Proof.
  intros db1.
  apply (proj2 (@punch_out_twice_refused demo morning near_head_office punched_in_table
                  (answer_of (@PunchOutView_post demo morning near_head_office
                                punched_in_table))
                  db1 evening far_away
                  ltac:(split; [repeat constructor; intros []|repeat constructor])
                  ltac:(simpl; lia)
                  ltac:(vm_compute; reflexivity)
                  eq_refl eq_refl eq_refl)
           29.5%float 77.25%float).
  repeat split.
Defined.

Lemma punch_in_after_punch_out_witness :
  let db1 := snd (@PunchOutView_post demo morning near_head_office punched_in_table) in
  exists r2 db2,
    @PunchInView_post demo evening near_annex db1 = (Ok r2, db2) /\
    status_code r2 = 201 /\
    map id (rows db2) = [1].
Proof.
  intros db1.
  destruct (@punch_in_after_punch_out demo morning near_head_office punched_in_table
              (answer_of (@PunchOutView_post demo morning near_head_office
                            punched_in_table))
              db1 evening near_annex 28.578125%float 77.25%float annex 50%float)
    as (a & r2 & db2 & _ & E & Hok & Hids & _).
  - split; [repeat constructor; intros []|repeat constructor].
  - simpl. lia.
  - vm_compute; reflexivity.
  - reflexivity.
  - reflexivity.
  - reflexivity.
  - repeat split.
  - vm_compute; reflexivity.
  - vm_compute; reflexivity.
  - exists r2, db2. split; [exact E|]. split; [apply Hok|exact Hids].
Defined.

Lemma status_foretells_punch_in_witness :
  (exists r, @PunchInView_post demo evening near_head_office punched_in_table
               = (Ok r, punched_in_table) /\
             AlreadyPunchedInError r)
  <-> status_field "is_punched_in"
        (fst (@TodayAttendanceView_get demo evening near_head_office punched_in_table))
      = Some (PyBool true).
Proof.
  apply (@status_foretells_punch_in demo evening near_head_office punched_in_table
           28.548828125%float 77.25%float (Some head_office) 50%float).
  - repeat split.
  - vm_compute; reflexivity.
  - vm_compute; reflexivity.
Defined.

Lemma punched_in_can_punch_out_witness :
  (exists a, todays_active 7 20000 punched_in_table = Some a) /\
  fst (@PunchOutView_post demo evening far_away punched_in_table) <> Ok not_punched_in.
Proof.
  apply (@punched_in_can_punch_out demo evening far_away punched_in_table
           29.5%float 77.25%float).
  - repeat split.
  - reflexivity.
Defined.

Lemma detect_branch_agrees_with_range_check_witness :
  fst (fst (@detect_branch demo 28.578125%float 77.25%float))
    = negb (py_gt (snd (@find_nearest demo 28.578125%float 77.25%float))
              (@PUNCH_RADIUS demo)) /\
  (forall n d, @detect_branch demo 28.578125%float 77.25%float = (true, n, Some d) ->
               py_le (snd (@find_nearest demo 28.578125%float 77.25%float)) d = true).
Proof.
  apply (@detect_branch_agrees_with_range_check demo 28.578125%float 77.25%float).
  - discriminate.
  - intros b [<-|[<-|[]]]; vm_compute; reflexivity.
  - vm_compute; reflexivity.
Defined.

Lemma no_branches_configured_witness :
  @detect_branch no_branches 28.5%float 77.25%float = (false, None, None) /\
  @find_nearest no_branches 28.5%float 77.25%float = (None, infinity) /\
  @PunchInView_post no_branches morning (at_point 7 28.5%float 77.25%float) empty_table
    = (Raise TypeError, empty_table) /\
  @PunchOutView_post no_branches morning (at_point 7 28.5%float 77.25%float) empty_table
    = (Ok not_punched_in, empty_table).
Proof.
  apply (@no_branches_configured no_branches morning
           (at_point 7 28.5%float 77.25%float) empty_table 28.5%float 77.25%float).
  - reflexivity.
  - vm_compute; reflexivity.
  - repeat split.
Defined.

Lemma sign_in_keeps_users_witness :
  wf_users (snd (@GoogleAuthView_post demo_auth morning (with_token (PyStr "asha"))
                   no_users)) /\
  users (snd (@GoogleAuthView_post demo_auth morning (with_token (PyStr "asha"))
                no_users))
    = [ {| User.pk := 1; User.email := "asha@example.com"; User.name := PyStr "Asha";
           User.picture := PyStr "asha.png"; User.lastlogin := now morning |} ].
Proof.
  destruct (@sign_in_keeps_users demo_auth morning (with_token (PyStr "asha")) no_users)
    as [Hwf _].
  - repeat split; constructor.
  - split; [exact Hwf|reflexivity].
Defined.

Lemma sign_in_again_same_user_witness :
  exists acc2 ref2 us2,
    @GoogleAuthView_post demo_auth evening (with_token (PyStr "asha-renamed"))
      (snd (@GoogleAuthView_post demo_auth morning (with_token (PyStr "asha")) no_users))
    = (AuthTokens acc2 ref2 "asha@example.com" (PyStr "asha@example.com")
         (PyStr "new.png") 1, us2) /\
    map User.pk (users us2) = [1].
Proof.
  destruct (@sign_in_again_same_user demo_auth morning (with_token (PyStr "asha"))
              no_users "access:asha@example.com" "refresh:asha@example.com"
              "asha@example.com" (PyStr "Asha") (PyStr "asha.png") 1
              (snd (@GoogleAuthView_post demo_auth morning (with_token (PyStr "asha"))
                      no_users))
              evening (with_token (PyStr "asha-renamed"))
              [("email", PyStr "asha@example.com"); ("picture", PyStr "new.png")])
    as (acc2 & ref2 & nm2 & pic2 & us2 & u2 & E & Hpk & _ & _ & _ & _ & _ & -> & ->).
  - repeat split; constructor.
  - reflexivity.
  - reflexivity.
  - reflexivity.
  - reflexivity.
  - exists acc2, ref2, us2. split; [exact E|exact Hpk].
Defined.

Lemma sign_in_not_allowed_witness :
  @GoogleAuthView_post demo_auth morning (with_token (PyStr "guest")) no_users
    = (AuthError "Not allowed" 403, no_users).
Proof.
  apply (@sign_in_not_allowed demo_auth morning (with_token (PyStr "guest")) no_users
           [("email", PyStr "guest@example.com")]).
  - reflexivity.
  - reflexivity.
  - intros e E [H|[]]. simpl in E. injection E as <-. discriminate.
Defined.

Lemma sign_in_without_token_witness :
  @GoogleAuthView_post demo_auth morning (with_token (PyStr "")) no_users
    = (AuthError "id_token required" 400, no_users).
Proof.
  apply (@sign_in_without_token demo_auth morning (with_token (PyStr "")) no_users).
  right. right. reflexivity.
Defined.

(** A token the verifier turns down is answered 400 with the verifier's
    text. *)
Example sign_in_with_a_bad_token :
  @GoogleAuthView_post demo_auth morning (with_token (PyStr "x.y")) no_users
  = (AuthError "Invalid token (details: Wrong number of segments)" 400, no_users).
Proof. reflexivity. Qed.
